(** * bdk-rn: the [BdkInterface] facade over the native wallet module

    A shallow embedding of [src/index.ts] (and of its compiled twin
    [lib/index.js]): the request validation and the descriptor construction,
    with the native module [NativeModules.BdkRnModule] kept abstract. *)

From Stdlib Require Import ZArith List String Ascii Bool Lia DecimalString.
From Stdlib Require DecimalPos DecimalZ.
Import ListNotations.
Open Scope Z_scope.
Open Scope string_scope.
Set Warnings "-register-all".

(** ** JavaScript values *)

(** The values that cross the facade: requests carry them in, the native
    module hands them back.  Numbers are the integers (word counts, entropy
    sizes, thresholds); fractions, NaN and the infinities are outside the
    model. *)
Inductive JsVal : Type :=
| JUndefined
| JNull
| JNum (n : Z)
| JStr (s : string)
| JArr (items : list JsVal)
| JObj (props : list (string * JsVal)).

(** A request field whose declared type matters to the code that reads it:
    [field?: A] may be left out, be [null], or hold an [A]. *)
Inductive optional (A : Type) : Type :=
| OUndefined
| ONull
| OVal (a : A).
Arguments OUndefined {A}.
Arguments ONull {A}.
Arguments OVal {A} a.

(** Number-to-string conversion of an integer: decimal digits, a leading
    minus sign for negatives.  This is what JavaScript prints for the
    integers a number holds exactly, those [isSafeInteger] accepts below;
    beyond them a number prints rounded digits or an exponent, and the
    theorems that print a number assume [isSafeInteger] of it. *)
Definition string_of_Z (n : Z) : string := NilZero.string_of_int (Z.to_int n).

(** [Array.prototype.join]: the elements printed by [elem], [undefined] and
    [null] as the empty string, with [sep] between them. *)
Definition join_with (sep : string) (elem : JsVal -> string) : list JsVal -> string :=
  fix join (l : list JsVal) : string :=
    match l with
    | [] => ""
    | x :: rest =>
        let sx := match x with JUndefined | JNull => "" | _ => elem x end in
        match rest with
        | [] => sx
        | _ :: _ => sx ++ sep ++ join rest
        end
    end.

(** [String(v)], the conversion a template literal applies to each
    substitution, for the values [printable] accepts below: a number outside
    the safe integers prints otherwise, and an object with a [toString]
    property of its own (no function, in this model) makes the conversion
    throw.  The theorems that print a value assume [printable] of it. *)
Fixpoint toString (v : JsVal) : string :=
  match v with
  | JUndefined => "undefined"
  | JNull => "null"
  | JNum n => string_of_Z n
  | JStr s => s
  | JArr items => join_with "," toString items
  | JObj _ => "[object Object]"
  end.

(** [Number.isSafeInteger(n)]: the integers below 2^53 in magnitude, each
    held exactly by a number and printed digit for digit. *)
Definition isSafeInteger (n : Z) : bool := (Z.abs n <=? 2 ^ 53 - 1)%Z.

(** The values [toString] prints as a template literal does: [undefined],
    [null], strings, safe integers, objects that inherit their [toString],
    and arrays of such values. *)
Fixpoint printable (v : JsVal) : bool :=
  match v with
  | JUndefined | JNull | JStr _ => true
  | JNum n => isSafeInteger n
  | JArr items => forallb printable items
  | JObj props => negb (existsb (fun kv => fst kv =? "toString") props)
  end.

(** [!!v] *)
Definition truthy (v : JsVal) : bool :=
  match v with
  | JUndefined | JNull => false
  | JNum n => negb (n =? 0)%Z
  | JStr s => negb (s =? "")
  | JArr _ | JObj _ => true
  end.

(** [a ?? b] *)
Definition nullish (a b : JsVal) : JsVal :=
  match a with
  | JUndefined | JNull => b
  | _ => a
  end.

(** [o.key] on an object literal's own properties. *)
Fixpoint lookup (key : string) (props : list (string * JsVal)) : JsVal :=
  match props with
  | [] => JUndefined
  | (k, v) :: rest => if k =? key then v else lookup key rest
  end.

(** The value of a typed field as the code sees it. *)
Definition js_of {A : Type} (inj : A -> JsVal) (o : optional A) : JsVal :=
  match o with
  | OUndefined => JUndefined
  | ONull => JNull
  | OVal a => inj a
  end.

(** [String.prototype.includes] *)
Definition includes (s sub : string) : bool :=
  match index 0 sub s with
  | Some _ => true
  | None => false
  end.

(** [Array.prototype.join] on an array of strings. *)
Definition join (sep : string) (l : list string) : string := String.concat sep l.

(** ** The result envelope, [lib/utils] *)

(** Modelled from the spec: [lib/utils] is not part of the sources at hand.
    The envelope is the tagged union [{ok: true, data}] or
    [{ok: false, error}], exactly one arm populated. *)
Inductive Response : Type :=
| Success (data : JsVal)
| Failure (error : JsVal).

(** Modelled from the spec: [success(data)] is [{ok: true, data}]. *)
Definition success (data : JsVal) : Response := Success data.

(** Modelled from the spec: [failure(error)] is
    [{ok: false, error: normalize(error)}]; [normalize], which shapes the
    thrown value into an error record, is a parameter. *)
Definition failure (normalize : JsVal -> JsVal) (e : JsVal) : Response :=
  Failure (normalize e).

(** Modelled from the spec: reading [.data] off an envelope.  The failure arm
    has no such field. *)
Definition data (r : Response) : JsVal :=
  match r with
  | Success d => d
  | Failure _ => JUndefined
  end.

(** Modelled from the spec: [_exists(v)] holds iff [v] is not [null], not
    [undefined] and not the empty string. *)
Definition _exists (v : JsVal) : bool :=
  match v with
  | JUndefined | JNull => false
  | JStr s => negb (s =? "")
  | _ => true
  end.

(** ** The native module and the world it lives in *)

(** One call [this._bdk.method(args...)]. *)
Record NativeCall : Type := { method : string; arguments : list JsVal }.

(** What an observer of the facade sees happen. *)
Inductive Event : Type :=
| Native (c : NativeCall)
| ConsoleLog (v : JsVal).

(** How a piece of code completes: with a value, or by throwing. *)
Inductive Completion (A : Type) : Type :=
| Done (a : A)
| Thrown (e : JsVal).
Arguments Done {A} a.
Arguments Thrown {A} e.

(** The state of the native wallet engine and the events so far. *)
Record World (St : Type) : Type := { engine : St; events : list Event }.
Arguments engine {St} w.
Arguments events {St} w.

(** An asynchronous computation; every [await] runs to completion before the
    next statement (one thread of control), and no other caller's work comes
    between two of them. *)
Definition Async (St A : Type) : Type := World St -> Completion A * World St.

Definition ret {St A} (a : A) : Async St A := fun w => (Done a, w).

Definition throw {St A} (e : JsVal) : Async St A := fun w => (Thrown e, w).

Definition bind {St A B} (m : Async St A) (k : A -> Async St B) : Async St B :=
  fun w =>
    match m w with
    | (Done a, w') => k a w'
    | (Thrown e, w') => (Thrown e, w')
    end.

(** [try { body } catch (e) { handler }] *)
Definition tryCatch {St A} (body : Async St A) (handler : JsVal -> Async St A) : Async St A :=
  fun w =>
    match body w with
    | (Done a, w') => (Done a, w')
    | (Thrown e, w') => handler e w'
    end.

Definition console_log {St} (v : JsVal) : Async St unit :=
  fun w => (Done tt, {| engine := engine w; events := (events w ++ [ConsoleLog v])%list |}).

Declare Scope async_scope.
Delimit Scope async_scope with async.
Notation "x <- m ;; k" := (bind m (fun x => k))
  (at level 100, m at next level, right associativity) : async_scope.
Notation "m ;;; k" := (bind m (fun _ => k))
  (at level 100, right associativity) : async_scope.

(** The error a property read on [undefined] or [null] throws. *)
Definition typeError : JsVal := JObj [("name", JStr "TypeError")].

(** [v.key], for a key that is no built-in property of numbers, strings and
    arrays (the code reads [xprv] only). *)
Definition member {St} (v : JsVal) (key : string) : Async St JsVal :=
  match v with
  | JUndefined | JNull => throw typeError
  | JObj props => ret (lookup key props)
  | JNum _ | JStr _ | JArr _ => ret JUndefined
  end.

(** ** Requests, [lib/interfaces]

    A field the code only tests with [_exists], forwards or prints is a
    [JsVal]; a field the code indexes, compares or calls a method on carries
    its declared type. *)

Module GenerateMnemonicRequest.
Record t : Type := { entropy : optional Z; length : JsVal; network : JsVal }.
End GenerateMnemonicRequest.

Module CreateExtendedKeyRequest.
Record t : Type := { network : JsVal; mnemonic : JsVal; password : JsVal }.
End CreateExtendedKeyRequest.

Module CreateDescriptorRequest.
Record t : Type := {
  type : optional string;
  mnemonic : JsVal;
  password : JsVal;
  network : JsVal;
  publicKeys : optional (list string);
  threshold : optional Z;
  xprv : JsVal;
  path : JsVal
}.
End CreateDescriptorRequest.

Module createWalletRequest.
Record t : Type := {
  mnemonic : JsVal;
  descriptor : optional string;
  password : JsVal;
  network : JsVal;
  blockChainConfigUrl : JsVal;
  blockChainSocket5 : JsVal;
  retry : JsVal;
  timeOut : JsVal;
  blockChainName : JsVal
}.
End createWalletRequest.

(** The object literal of [generateMnemonic]. *)
Definition entropyToLength : list (string * JsVal) :=
  [("128", JNum 12); ("160", JNum 15); ("192", JNum 18); ("224", JNum 21); ("256", JNum 24)].

(** [type == s], for a field declared [type?: string]. *)
Definition looseEq (type : optional string) (s : string) : bool :=
  match type with
  | OVal t => t =? s
  | OUndefined | ONull => false
  end.

(** The [switch (type)] of [createDescriptor]: the method token it assigns,
    the initial [''] when no case matches. *)
Definition methodOf (type : optional string) : string :=
  match type with
  | OUndefined | ONull => "wpkh"
  | OVal t =>
      if (t =? "default") || (t =? "") || (t =? "p2wpkh") || (t =? "wpkh") then "wpkh"
      else if (t =? "p2pkh") || (t =? "pkh") then "pkh"
      else if (t =? "shp2wpkh") || (t =? "p2shp2wpkh") then "sh(wpkh"
      else ""
  end.

(** A value of declared type [number]: the integers of the model and the
    one value [isNaN] looks for. *)
Inductive JsNumber : Type :=
| NaN
| Num (n : Z).

Module BroadcastTransactionRequest.
Record t : Type := { address : JsVal; amount : optional JsNumber }.
End BroadcastTransactionRequest.

(** [_exists(v)] on a field declared a number: [NaN] is a value, neither
    [null] nor [undefined] nor the empty string. *)
Definition existsNumber (v : optional JsNumber) : bool :=
  match v with
  | OUndefined => _exists JUndefined
  | ONull => _exists JNull
  | OVal NaN => true
  | OVal (Num n) => _exists (JNum n)
  end.

(** [isNaN(v)] on a field declared a number: [undefined] converts to [NaN],
    [null] to 0. *)
Definition isNaN (v : optional JsNumber) : bool :=
  match v with
  | OUndefined => true
  | ONull => false
  | OVal NaN => true
  | OVal (Num _) => false
  end.

(** ** The facade, [class BdkInterface] *)

Section BdkInterface.

Variable St : Type.

(** [this._bdk], the native module: it answers a call from its current
    state, by a value or by a rejection, and moves to a new state. *)
Variable _bdk : NativeCall -> St -> Completion JsVal * St.

Variable normalize : JsVal -> JsVal.

Local Open Scope async_scope.

(** [await this._bdk.name(args...)] *)
Definition invoke (name : string) (args : list JsVal) : Async St JsVal :=
  fun w =>
    let c := {| method := name; arguments := args |} in
    let (r, s) := _bdk c (engine w) in
    (r, {| engine := s; events := (events w ++ [Native c])%list |}).

(** Every method is [try { ... return success(x) } catch (e) { return failure(e) }]. *)
Definition orFailure (body : Async St Response) : Async St Response :=
  tryCatch body (fun e => ret (failure normalize e)).

(** [generateMnemonic(args = { length: 12 })]; [None] is the call without an
    argument.  (The unused local [entropy] of the source is left out.) *)
Definition generateMnemonic (args : option GenerateMnemonicRequest.t) : Async St Response :=
  let args :=
    match args with
    | Some a => a
    | None => {| GenerateMnemonicRequest.entropy := OUndefined;
                 GenerateMnemonicRequest.length := JNum 12;
                 GenerateMnemonicRequest.network := JUndefined |}
    end in
  orFailure (
    let entropy := js_of JNum (GenerateMnemonicRequest.entropy args) in
    let length := GenerateMnemonicRequest.length args in
    let wordCount :=
      if truthy entropy && truthy length then lookup (toString entropy) entropyToLength
      else if negb (truthy entropy) && negb (truthy length) then JNum 12
      else length in
    let network := GenerateMnemonicRequest.network args in
    let network := if _exists network then JStr "testnet" else network in
    seed <- invoke "generateMnemonic" [wordCount; network] ;;
    ret (success seed)).

Definition createExtendedKey (args : CreateExtendedKeyRequest.t) : Async St Response :=
  let 'CreateExtendedKeyRequest.Build_t network mnemonic password := args in
  orFailure (
    keyInfo <- invoke "getExtendedKeyInfo" [network; mnemonic; password] ;;
    ret (success keyInfo)).

Definition createXprv (args : CreateExtendedKeyRequest.t) : Async St Response :=
  let 'CreateExtendedKeyRequest.Build_t network mnemonic password := args in
  tryCatch (
    keyInfo <- invoke "getExtendedKeyInfo" [network; mnemonic; password] ;;
    xprv <- member keyInfo "xprv" ;;
    ret (success xprv))
  (fun e => console_log e ;;; ret (failure normalize e)).

Definition createDescriptor (args : CreateDescriptorRequest.t) : Async St Response :=
  let 'CreateDescriptorRequest.Build_t type mnemonic password network publicKeys threshold _ _ := args in
  orFailure (
    let xprv := CreateDescriptorRequest.xprv args in
    let path := CreateDescriptorRequest.path args in
    if negb (_exists xprv) && negb (_exists mnemonic)
    then throw (JStr "Required param mnemonic or xprv is missing.") else
    if _exists xprv && _exists mnemonic
    then throw (JStr "Only one parameter is required either mnemonic or xprv.") else
    let useMnemonic := negb (_exists xprv) in
    xprv <- (if useMnemonic then
               if negb (_exists mnemonic) || negb (_exists network)
               then throw (JStr "One or more required parameters are emtpy(Mnemonic, Network).")
               else
                 r <- createXprv {| CreateExtendedKeyRequest.network := network;
                                    CreateExtendedKeyRequest.mnemonic := mnemonic;
                                    CreateExtendedKeyRequest.password := password |} ;;
                 ret (data r)
             else ret xprv) ;;
    if negb useMnemonic && negb (_exists xprv) then throw (JStr "XPRV is required") else
    let path := if negb (_exists path) then JStr "/84'/1'/0'/0/*" else path in
    if negb (looseEq type "MULTI") then
      let method := methodOf type in
      ret (success (JStr (method ++ "(" ++ toString xprv ++ toString path ++ ")")))
    else
      match threshold, publicKeys with
      | OVal threshold, OVal publicKeys =>
          (* on a number [!threshold] is [threshold == 0]; an array is truthy *)
          let length := Z.of_nat (List.length publicKeys) in
          if (threshold =? 0)%Z || (length =? 0)%Z
          then throw (JStr "Thresold or publicKeys values are invalid.") else
          if (threshold =? 0)%Z || (threshold >? length + 1)%Z
          then throw (JStr "Thresold value is invalid.") else
          ret (success (JStr ("sh(multi(" ++ toString (JNum threshold) ++ toString xprv ++ ","
                              ++ join "," publicKeys ++ toString path ++ "))")))
      | _, _ =>
          (* [!threshold || !publicKeys]: one of them is [undefined] or [null] *)
          throw (JStr "Thresold or publicKeys values are invalid.")
      end).

Definition createWallet (args : createWalletRequest.t) : Async St Response :=
  let 'createWalletRequest.Build_t mnemonic descriptor password network
         blockChainConfigUrl blockChainSocket5 retry timeOut blockChainName := args in
  orFailure (
    if negb (_exists (js_of JStr descriptor)) && negb (_exists mnemonic)
    then throw (JStr "Required param mnemonic or descriptor is missing.") else
    if _exists (js_of JStr descriptor) && _exists mnemonic
    then throw (JStr "Only one parameter is required either mnemonic or descriptor.") else
    let useDescriptor := _exists (js_of JStr descriptor) in
    if useDescriptor && match descriptor with OVal d => includes d " " | _ => false end
    then throw (JStr "Descriptor is not valid.") else
    if negb useDescriptor && (negb (_exists mnemonic) || negb (_exists network))
    then throw (JStr "One or more required parameters are emtpy(Mnemonic, Network).") else
    wallet <- invoke "createWallet"
                [nullish mnemonic (JStr "");
                 nullish password (JStr "");
                 nullish network (JStr "");
                 nullish blockChainConfigUrl (JStr "");
                 nullish blockChainSocket5 (JStr "");
                 nullish retry (JStr "");
                 nullish timeOut (JStr "");
                 nullish blockChainName (JStr "");
                 nullish (js_of JStr descriptor) (JStr "")] ;;
    ret (success wallet)).

Definition syncWallet : Async St Response :=
  orFailure (response <- invoke "syncWallet" [] ;; ret (success response)).

Definition getNewAddress : Async St Response :=
  orFailure (address <- invoke "getNewAddress" [] ;; ret (success address)).

Definition getBalance : Async St Response :=
  orFailure (balance <- invoke "getBalance" [] ;; ret (success balance)).

Definition broadcastTx (args : BroadcastTransactionRequest.t) : Async St Response :=
  let 'BroadcastTransactionRequest.Build_t address amount := args in
  orFailure (
    if negb (_exists address) || negb (existsNumber amount)
    then throw (JStr "Required address or amount parameters are missing.") else
    if isNaN amount then throw (JStr "Entered amount is invalid") else
    match amount with
    | OVal (Num n) =>
        tx <- invoke "broadcastTx" [address; JNum n] ;;
        ret (success tx)
    | ONull =>
        (* not [NaN] either; the first guard has stopped it *)
        tx <- invoke "broadcastTx" [address; JNull] ;;
        ret (success tx)
    | OUndefined | OVal NaN =>
        (* [isNaN(amount)] holds; the guard above has thrown *)
        throw (JStr "Entered amount is invalid")
    end).

Definition getPendingTransactions : Async St Response :=
  orFailure (response <- invoke "getPendingTransactions" [] ;; ret (success response)).

Definition getConfirmedTransactions : Async St Response :=
  orFailure (response <- invoke "getConfirmedTransactions" [] ;; ret (success response)).

Definition getTransactions : Async St Response :=
  orFailure (
    confirmed <- invoke "getConfirmedTransactions" [] ;;
    pending <- invoke "getPendingTransactions" [] ;;
    let response := JObj [("confirmed", confirmed); ("pending", pending)] in
    ret (success response)).

End BdkInterface.

Arguments invoke {St} _bdk name args w.
Arguments generateMnemonic {St} _bdk normalize args w.
Arguments createExtendedKey {St} _bdk normalize args w.
Arguments createXprv {St} _bdk normalize args w.
Arguments createDescriptor {St} _bdk normalize args w.
Arguments createWallet {St} _bdk normalize args w.
Arguments getTransactions {St} _bdk normalize w.
Arguments syncWallet {St} _bdk normalize w.
Arguments getNewAddress {St} _bdk normalize w.
Arguments getBalance {St} _bdk normalize w.
Arguments broadcastTx {St} _bdk normalize args w.
Arguments getPendingTransactions {St} _bdk normalize w.
Arguments getConfirmedTransactions {St} _bdk normalize w.

(** ** What the specification says, for comparison *)

(** The word count as the specification resolves it: entropy, when given,
    decides through the table; otherwise the given length; otherwise 12. *)
Definition resolveMnemonicLength (entropy : optional Z) (length : JsVal) : JsVal :=
  if truthy (js_of JNum entropy) then lookup (toString (js_of JNum entropy)) entropyToLength
  else if truthy length then length
  else JNum 12.

(** Whether every parenthesis of a string is matched; [depth] counts the ones
    open so far. *)
Fixpoint balanced_from (depth : nat) (s : string) : bool :=
  match s with
  | EmptyString => Nat.eqb depth 0
  | String c rest =>
      if Ascii.eqb c "("%char then balanced_from (S depth) rest
      else if Ascii.eqb c ")"%char then
        match depth with
        | O => false
        | S d => balanced_from d rest
        end
      else balanced_from depth rest
  end.

Definition balanced (s : string) : bool := balanced_from 0 s.

(** The preconditions of [createWallet] as the specification lists them. *)
Definition createWallet_preconditions (args : createWalletRequest.t) : Prop :=
  let d := js_of JStr (createWalletRequest.descriptor args) in
  (* exactly one of descriptor and mnemonic is supplied *)
  (_exists d = negb (_exists (createWalletRequest.mnemonic args)))
  (* a supplied descriptor contains no space character *)
  /\ (forall s, createWalletRequest.descriptor args = OVal s -> _exists d = true ->
        ~ In " "%char (list_ascii_of_string s))
  (* on the mnemonic path the network is supplied *)
  /\ (_exists d = false -> _exists (createWalletRequest.network args) = true).

(** The four guards of [createWallet] read together: [true] when none of
    them throws. *)
Definition createWallet_accepts (args : createWalletRequest.t) : bool :=
  let descriptor := createWalletRequest.descriptor args in
  let mnemonic := createWalletRequest.mnemonic args in
  let network := createWalletRequest.network args in
  let useDescriptor := _exists (js_of JStr descriptor) in
  negb (negb (_exists (js_of JStr descriptor)) && negb (_exists mnemonic))
  && negb (_exists (js_of JStr descriptor) && _exists mnemonic)
  && negb (useDescriptor && match descriptor with OVal d => includes d " " | _ => false end)
  && negb (negb useDescriptor && (negb (_exists mnemonic) || negb (_exists network))).

(** The nine positional arguments of the native wallet constructor, each
    absent field replaced by the empty string. *)
Definition createWallet_call (args : createWalletRequest.t) : NativeCall :=
  let orEmpty v := if _exists v then v else JStr "" in
  {| method := "createWallet";
     arguments :=
       [ orEmpty (createWalletRequest.mnemonic args);
         orEmpty (createWalletRequest.password args);
         orEmpty (createWalletRequest.network args);
         orEmpty (createWalletRequest.blockChainConfigUrl args);
         orEmpty (createWalletRequest.blockChainSocket5 args);
         orEmpty (createWalletRequest.retry args);
         orEmpty (createWalletRequest.timeOut args);
         orEmpty (createWalletRequest.blockChainName args);
         orEmpty (js_of JStr (createWalletRequest.descriptor args)) ] |}.

(** The last part of [createDescriptor], from the default path to the
    descriptor, as a function of the key text it prints: the same tests and
    the same strings, with no world to thread. *)
Definition buildDescriptor (type : optional string) (threshold : optional Z)
    (publicKeys : optional (list string)) (xprv path : JsVal) : Completion Response :=
  let path := if negb (_exists path) then JStr "/84'/1'/0'/0/*" else path in
  if negb (looseEq type "MULTI") then
    Done (success (JStr (methodOf type ++ "(" ++ toString xprv ++ toString path ++ ")")))
  else
    match threshold, publicKeys with
    | OVal threshold, OVal publicKeys =>
        let length := Z.of_nat (List.length publicKeys) in
        if (threshold =? 0)%Z || (length =? 0)%Z
        then Thrown (JStr "Thresold or publicKeys values are invalid.") else
        if (threshold =? 0)%Z || (threshold >? length + 1)%Z
        then Thrown (JStr "Thresold value is invalid.") else
        Done (success (JStr ("sh(multi(" ++ toString (JNum threshold) ++ toString xprv ++ ","
                             ++ join "," publicKeys ++ toString path ++ "))")))
    | _, _ => Thrown (JStr "Thresold or publicKeys values are invalid.")
    end.

(** A text without any parenthesis. *)
Fixpoint noParens (s : string) : bool :=
  match s with
  | EmptyString => true
  | String c rest => negb (Ascii.eqb c "("%char) && negb (Ascii.eqb c ")"%char) && noParens rest
  end.

(** ** Native modules to run the facade against *)

(** A module that rejects every call with [e]. *)
Definition rejecting (e : JsVal) : NativeCall -> unit -> Completion JsVal * unit :=
  fun _ s => (Thrown e, s).

(** A module that numbers its calls: it answers the n-th call with an object
    holding the method's name and n. *)
Definition counting : NativeCall -> Z -> Completion JsVal * Z :=
  fun c n => (Done (JObj [("method", JStr (method c)); ("call", JNum n)]), n + 1).

(** A module whose pending-transactions call is rejected and whose other calls
    return an empty array. *)
Definition pendingFails (e : JsVal) : NativeCall -> unit -> Completion JsVal * unit :=
  fun c s => if method c =? "getPendingTransactions" then (Thrown e, s) else (Done (JArr []), s).

(** A module that derives the same key material for every seed: its
    [getExtendedKeyInfo] answers with an object of three fields, every other
    call with [undefined]. *)
Definition keyInfoModule : NativeCall -> unit -> Completion JsVal * unit :=
  fun c s =>
    if method c =? "getExtendedKeyInfo"
    then (Done (JObj [("fingerprint", JStr "d1d04177"); ("xprv", JStr "tprvK"); ("xpub", JStr "tpubK")]), s)
    else (Done JUndefined, s).

(** A module that answers every call with [v] and counts nothing. *)
Definition answering (v : JsVal) : NativeCall -> unit -> Completion JsVal * unit :=
  fun _ s => (Done v, s).

Definition start {St : Type} (s : St) : World St := {| engine := s; events := [] |}.

(** Modelled from the spec: one [normalize] to run examples with, an error
    record whose message is the thrown value's text. *)
Definition messageOf (e : JsVal) : JsVal := JObj [("message", JStr (toString e))].

(** Unfolds a facade method down to its guards. *)
Ltac run_facade :=
  unfold createDescriptor, createWallet, orFailure, tryCatch, bind, ret, throw; simpl.

(** ** Properties *)

Example string_of_Z_examples :
  string_of_Z 0 = "0" /\ string_of_Z 12 = "12" /\ string_of_Z (-1) = "-1".
Proof. repeat split; reflexivity. Qed.

Example toString_examples :
  toString (JArr [JStr "a"; JNull; JNum 3]) = "a,,3" /\ toString (JArr []) = "".
Proof. split; reflexivity. Qed.

(** Where the printer stops being the code's: 10^21, which JavaScript prints
    with an exponent, and an object whose own [toString] is no function. *)
Example printable_examples :
  printable (JNum (-1)) = true
  /\ printable (JArr [JStr "a"; JNull; JObj [("xpub", JStr "k")]]) = true
  /\ printable (JNum (10 ^ 21)) = false
  /\ printable (JObj [("toString", JNull)]) = false.
Proof. repeat split; reflexivity. Qed.

(** [_exists] in the specification's words. *)
Lemma _exists_spec (v : JsVal) :
  _exists v = true <-> v <> JNull /\ v <> JUndefined /\ v <> JStr "".
Proof.
  destruct v as [| | n | s | items | props]; simpl;
    try (split; [intros _; repeat split; discriminate | reflexivity]);
    try (split; [discriminate | intros (H1 & H2 & H3); congruence]).
  destruct (String.eqb_spec s "") as [-> | Hs]; simpl.
  - split; [discriminate | intros (_ & _ & H); congruence].
  - split; [intros _; repeat split; congruence | reflexivity].
Qed.

Section Properties.

Variable St : Type.
Variable _bdk : NativeCall -> St -> Completion JsVal * St.
Variable normalize : JsVal -> JsVal.

(** *** The monad *)

Lemma invoke_spec (name : string) (args : list JsVal) (w : World St) :
  invoke _bdk name args w =
    (fst (_bdk {| method := name; arguments := args |} (engine w)),
     {| engine := snd (_bdk {| method := name; arguments := args |} (engine w));
        events := (events w ++ [Native {| method := name; arguments := args |}])%list |}).
Proof.
  unfold invoke.
  destruct (_bdk _ (engine w)) as [r s]; reflexivity.
Qed.

Lemma world_eta (w : World St) : {| engine := engine w; events := events w |} = w.
Proof. destruct w; reflexivity. Qed.

(** No exception crosses the facade: a guarded body always completes with an
    envelope. *)
Lemma orFailure_never_throws (body : Async St Response) (w : World St) :
  exists r, fst (orFailure St normalize body w) = Done r.
Proof.
  unfold orFailure, tryCatch.
  destruct (body w) as [[r | e] w']; simpl; eauto.
Qed.

(** *** generateMnemonic *)

(** The one native call of [generateMnemonic], whatever the request. *)
Lemma generateMnemonic_events (args : GenerateMnemonicRequest.t) (w : World St) :
  let entropy := js_of JNum (GenerateMnemonicRequest.entropy args) in
  let length := GenerateMnemonicRequest.length args in
  let network := GenerateMnemonicRequest.network args in
  events (snd (generateMnemonic _bdk normalize (Some args) w)) =
    (events w ++
     [Native {| method := "generateMnemonic";
                arguments :=
                  [ if truthy entropy && truthy length then lookup (toString entropy) entropyToLength
                    else if negb (truthy entropy) && negb (truthy length) then JNum 12
                    else length;
                    if _exists network then JStr "testnet" else network ] |}])%list.
Proof.
  intros entropy length network.
  unfold generateMnemonic, orFailure, tryCatch, bind.
  rewrite invoke_spec.
  destruct (_bdk _ (engine w)) as [[seed | e] s]; reflexivity.
Qed.

(** C2 (the entropy-only case): a request that gives the entropy 128 and no
    length forwards [undefined] as the word count, where the specification's
    resolver (and the claim) give 12; likewise 192 forwards [undefined], not
    18. *)
Theorem generateMnemonic_entropy_only_forwards_undefined (w : World St) :
  let request e := {| GenerateMnemonicRequest.entropy := OVal e;
                      GenerateMnemonicRequest.length := JUndefined;
                      GenerateMnemonicRequest.network := JUndefined |} in
  events (snd (generateMnemonic _bdk normalize (Some (request 128)) w)) =
    (events w ++ [Native {| method := "generateMnemonic"; arguments := [JUndefined; JUndefined] |}])%list
  /\ resolveMnemonicLength (OVal 128) JUndefined = JNum 12
  /\ events (snd (generateMnemonic _bdk normalize (Some (request 192)) w)) =
    (events w ++ [Native {| method := "generateMnemonic"; arguments := [JUndefined; JUndefined] |}])%list
  /\ resolveMnemonicLength (OVal 192) JUndefined = JNum 18.
Proof.
  intros request.
  repeat split; try reflexivity; rewrite generateMnemonic_events; reflexivity.
Qed.

(** Entropy alone: whatever the entropy, the word count forwarded is the
    request's (falsy) length, and the table is not read. *)
Lemma generateMnemonic_entropy_only (e : Z) (length network : JsVal) (w : World St) :
  e <> 0%Z -> truthy length = false ->
  events (snd (generateMnemonic _bdk normalize
                 (Some {| GenerateMnemonicRequest.entropy := OVal e;
                          GenerateMnemonicRequest.length := length;
                          GenerateMnemonicRequest.network := network |}) w)) =
    (events w ++
     [Native {| method := "generateMnemonic";
                arguments := [length; if _exists network then JStr "testnet" else network] |}])%list.
Proof.
  intros He Hl. rewrite generateMnemonic_events. simpl.
  apply Z.eqb_neq in He. rewrite He, Hl. reflexivity.
Qed.

(** The other three cases of the word-count resolution agree with the
    specification's resolver: both given, neither given, only the length. *)
Lemma generateMnemonic_wordCount_agrees (args : GenerateMnemonicRequest.t) (w : World St) :
  let entropy := GenerateMnemonicRequest.entropy args in
  let length := GenerateMnemonicRequest.length args in
  let network := GenerateMnemonicRequest.network args in
  truthy (js_of JNum entropy) = false \/ truthy length = true ->
  events (snd (generateMnemonic _bdk normalize (Some args) w)) =
    (events w ++
     [Native {| method := "generateMnemonic";
                arguments := [ resolveMnemonicLength entropy length;
                               if _exists network then JStr "testnet" else network ] |}])%list.
Proof.
  intros entropy length network H.
  rewrite generateMnemonic_events.
  fold entropy length network. unfold resolveMnemonicLength.
  destruct (truthy (js_of JNum entropy)), (truthy length); simpl;
    try reflexivity; destruct H; discriminate.
Qed.

(** The call without an argument asks for 12 words. *)
Lemma generateMnemonic_default (w : World St) :
  events (snd (generateMnemonic _bdk normalize None w)) =
    (events w ++ [Native {| method := "generateMnemonic"; arguments := [JNum 12; JUndefined] |}])%list.
Proof.
  unfold generateMnemonic, orFailure, tryCatch, bind.
  rewrite invoke_spec.
  destruct (_bdk _ (engine w)) as [[seed | e] s]; reflexivity.
Qed.

(** C4: a supplied network is replaced by the string "testnet" in the call to
    the native mnemonic generator; an absent one is forwarded as it is. *)
Theorem generateMnemonic_network (args : GenerateMnemonicRequest.t) (w : World St) :
  exists wordCount,
    (_exists (GenerateMnemonicRequest.network args) = true ->
       events (snd (generateMnemonic _bdk normalize (Some args) w)) =
         (events w ++ [Native {| method := "generateMnemonic";
                                 arguments := [wordCount; JStr "testnet"] |}])%list)
    /\ (_exists (GenerateMnemonicRequest.network args) = false ->
       events (snd (generateMnemonic _bdk normalize (Some args) w)) =
         (events w ++ [Native {| method := "generateMnemonic";
                                 arguments := [wordCount; GenerateMnemonicRequest.network args] |}])%list).
Proof.
  eexists; split; intros H; rewrite generateMnemonic_events; simpl; rewrite H; reflexivity.
Qed.

(** *** createDescriptor *)

(** C5: with neither an xprv nor a mnemonic the request fails with the
    "Required param" error, with both it fails with the "Only one parameter"
    error; either way the world is untouched (no native call, no event) and
    no descriptor is returned. *)
Theorem createDescriptor_one_key_source (args : CreateDescriptorRequest.t) (w : World St) :
  (_exists (CreateDescriptorRequest.xprv args) = false ->
   _exists (CreateDescriptorRequest.mnemonic args) = false ->
   createDescriptor _bdk normalize args w =
     (Done (failure normalize (JStr "Required param mnemonic or xprv is missing.")), w))
  /\
  (_exists (CreateDescriptorRequest.xprv args) = true ->
   _exists (CreateDescriptorRequest.mnemonic args) = true ->
   createDescriptor _bdk normalize args w =
     (Done (failure normalize (JStr "Only one parameter is required either mnemonic or xprv.")), w)).
Proof.
  destruct args as [type mnemonic password network publicKeys threshold xprv path].
  split; simpl; intros Hx Hm; run_facade; rewrite Hx, Hm; reflexivity.
Qed.

(** With a supplied xprv and no mnemonic, a type other than "MULTI" gives
    [method(xprv path)] without any native call (the text is the one the code
    prints when xprv and path are [printable]). *)
Lemma createDescriptor_single_key
  (type : optional string) (password network : JsVal)
  (publicKeys : optional (list string)) (threshold : optional Z)
  (mnemonic xprv path : JsVal) (w : World St) :
  _exists xprv = true ->
  _exists mnemonic = false ->
  looseEq type "MULTI" = false ->
  createDescriptor _bdk normalize
    {| CreateDescriptorRequest.type := type;
       CreateDescriptorRequest.mnemonic := mnemonic;
       CreateDescriptorRequest.password := password;
       CreateDescriptorRequest.network := network;
       CreateDescriptorRequest.publicKeys := publicKeys;
       CreateDescriptorRequest.threshold := threshold;
       CreateDescriptorRequest.xprv := xprv;
       CreateDescriptorRequest.path := path |} w =
  (Done (success (JStr (
     methodOf type ++ "(" ++ toString xprv
         ++ toString (if _exists path then path else JStr "/84'/1'/0'/0/*") ++ ")"))), w).
Proof.
  intros Hx Hm Ht. run_facade. rewrite Hx, Hm. simpl. rewrite Ht. simpl.
  rewrite Hx. simpl. destruct (_exists path); reflexivity.
Qed.

(** [type="wpkh", xprv="X"], no path: the default path is appended. *)
Example createDescriptor_wpkh_default_path (w : World St) :
  createDescriptor _bdk normalize
    {| CreateDescriptorRequest.type := OVal "wpkh";
       CreateDescriptorRequest.mnemonic := JUndefined;
       CreateDescriptorRequest.password := JUndefined;
       CreateDescriptorRequest.network := JUndefined;
       CreateDescriptorRequest.publicKeys := OUndefined;
       CreateDescriptorRequest.threshold := OUndefined;
       CreateDescriptorRequest.xprv := JStr "X";
       CreateDescriptorRequest.path := JUndefined |} w =
  (Done (success (JStr "wpkh(X/84'/1'/0'/0/*)")), w).
Proof. rewrite createDescriptor_single_key; reflexivity. Qed.

(** An unknown type leaves the method token empty. *)
Example createDescriptor_unknown_type (w : World St) :
  createDescriptor _bdk normalize
    {| CreateDescriptorRequest.type := OVal "taproot";
       CreateDescriptorRequest.mnemonic := JUndefined;
       CreateDescriptorRequest.password := JUndefined;
       CreateDescriptorRequest.network := JUndefined;
       CreateDescriptorRequest.publicKeys := OUndefined;
       CreateDescriptorRequest.threshold := OUndefined;
       CreateDescriptorRequest.xprv := JStr "X";
       CreateDescriptorRequest.path := JStr "/0/*" |} w =
  (Done (success (JStr "(X/0/*)")), w).
Proof. rewrite createDescriptor_single_key; reflexivity. Qed.

(** The descriptor of a "shp2wpkh" or "p2shp2wpkh" request, for every
    supplied xprv [X] and path [P]: one closing parenthesis. *)
Lemma createDescriptor_shp2wpkh (type X P : string) (w : World St) :
  type = "shp2wpkh" \/ type = "p2shp2wpkh" -> X <> "" -> P <> "" ->
  createDescriptor _bdk normalize
    {| CreateDescriptorRequest.type := OVal type;
       CreateDescriptorRequest.mnemonic := JUndefined;
       CreateDescriptorRequest.password := JUndefined;
       CreateDescriptorRequest.network := JUndefined;
       CreateDescriptorRequest.publicKeys := OUndefined;
       CreateDescriptorRequest.threshold := OUndefined;
       CreateDescriptorRequest.xprv := JStr X;
       CreateDescriptorRequest.path := JStr P |} w =
  (Done (success (JStr ("sh(wpkh(" ++ X ++ P ++ ")"))), w).
Proof.
  intros Ht HX HP.
  assert (EX : _exists (JStr X) = true) by (simpl; apply String.eqb_neq in HX; rewrite HX; reflexivity).
  assert (EP : _exists (JStr P) = true) by (simpl; apply String.eqb_neq in HP; rewrite HP; reflexivity).
  rewrite createDescriptor_single_key; try assumption; try reflexivity.
  - rewrite EP. destruct Ht; subst type; reflexivity.
  - destruct Ht; subst type; reflexivity.
Qed.

(** C1: the request type="shp2wpkh", xprv="X", path="/49'/0'/0'/0/*" returns
    a success envelope whose descriptor closes one parenthesis only: it is
    not the balanced string of the claim. *)
Theorem createDescriptor_shp2wpkh_unbalanced (w : World St) :
  createDescriptor _bdk normalize
    {| CreateDescriptorRequest.type := OVal "shp2wpkh";
       CreateDescriptorRequest.mnemonic := JUndefined;
       CreateDescriptorRequest.password := JUndefined;
       CreateDescriptorRequest.network := JUndefined;
       CreateDescriptorRequest.publicKeys := OUndefined;
       CreateDescriptorRequest.threshold := OUndefined;
       CreateDescriptorRequest.xprv := JStr "X";
       CreateDescriptorRequest.path := JStr "/49'/0'/0'/0/*" |} w =
    (Done (success (JStr ("sh(wpkh(X/49'/0'/0'/0/*" ++ ")"))), w)
  /\ balanced ("sh(wpkh(X/49'/0'/0'/0/*" ++ ")") = false
  /\ balanced ("sh(wpkh(X/49'/0'/0'/0/*" ++ "))") = true.
Proof.
  split; [| split; reflexivity].
  rewrite createDescriptor_shp2wpkh; [reflexivity | now left | discriminate | discriminate].
Qed.

(** A closing parenthesis too few is never balanced: after a balanced key and
    path the descriptor still has one parenthesis open. *)
Lemma balanced_from_app (s t : string) (d k : nat) :
  balanced_from d s = true -> balanced_from (d + k) (s ++ t) = balanced_from k t.
Proof.
  revert d. induction s as [| c s IH]; intros d H; simpl in *.
  - apply Nat.eqb_eq in H. subst d. reflexivity.
  - destruct (Ascii.eqb c "(").
    + apply (IH (S d) H).
    + destruct (Ascii.eqb c ")").
      * destruct d as [| d]; [discriminate | apply (IH d H)].
      * apply (IH d H).
Qed.

Lemma shp2wpkh_descriptor_unbalanced (X P : string) :
  balanced (X ++ P) = true -> balanced ("sh(wpkh(" ++ X ++ P ++ ")") = false.
Proof.
  intros H. unfold balanced in *. simpl.
  replace (X ++ P ++ ")") with ((X ++ P) ++ ")").
  - change 2%nat with (0 + 2)%nat.
    rewrite (balanced_from_app (X ++ P) ")" 0 2 H). reflexivity.
  - clear H. induction X as [| c X IH]; simpl; [reflexivity | now rewrite IH].
Qed.

(** With a supplied xprv and no mnemonic, a "MULTI" request with a threshold
    and a list of public keys runs the two tests and then builds the string,
    without any native call (the text is the one the code prints when the
    threshold is a safe integer and xprv and path are [printable]). *)
Lemma createDescriptor_multi
  (password network mnemonic xprv path : JsVal) (t : Z) (ks : list string) (w : World St) :
  _exists xprv = true ->
  _exists mnemonic = false ->
  createDescriptor _bdk normalize
    {| CreateDescriptorRequest.type := OVal "MULTI";
       CreateDescriptorRequest.mnemonic := mnemonic;
       CreateDescriptorRequest.password := password;
       CreateDescriptorRequest.network := network;
       CreateDescriptorRequest.publicKeys := OVal ks;
       CreateDescriptorRequest.threshold := OVal t;
       CreateDescriptorRequest.xprv := xprv;
       CreateDescriptorRequest.path := path |} w =
  (Done (if (t =? 0)%Z || (Z.of_nat (List.length ks) =? 0)%Z
         then failure normalize (JStr "Thresold or publicKeys values are invalid.")
         else if (t =? 0)%Z || (t >? Z.of_nat (List.length ks) + 1)%Z
         then failure normalize (JStr "Thresold value is invalid.")
         else success (JStr ("sh(multi(" ++ string_of_Z t ++ toString xprv ++ ","
                             ++ join "," ks
                             ++ toString (if _exists path then path else JStr "/84'/1'/0'/0/*")
                             ++ "))"))), w).
Proof.
  intros Hx Hm. run_facade. rewrite Hx, Hm. simpl. rewrite Hx. simpl.
  destruct ((t =? 0)%Z || (Z.of_nat (List.length ks) =? 0)%Z); [reflexivity |].
  destruct ((t =? 0)%Z || (t >? Z.of_nat (List.length ks) + 1)%Z); [reflexivity |].
  destruct (_exists path); reflexivity.
Qed.

(** The multisig tests reject exactly the threshold 0 and the thresholds
    above n + 1: a negative threshold is let through. *)
Lemma createDescriptor_multi_fails_iff
  (password network mnemonic xprv path : JsVal) (t : Z) (ks : list string) (w : World St) :
  _exists xprv = true ->
  _exists mnemonic = false ->
  ks <> [] ->
  (exists e, fst (createDescriptor _bdk normalize
      {| CreateDescriptorRequest.type := OVal "MULTI";
         CreateDescriptorRequest.mnemonic := mnemonic;
         CreateDescriptorRequest.password := password;
         CreateDescriptorRequest.network := network;
         CreateDescriptorRequest.publicKeys := OVal ks;
         CreateDescriptorRequest.threshold := OVal t;
         CreateDescriptorRequest.xprv := xprv;
         CreateDescriptorRequest.path := path |} w) = Done (Failure e))
  <-> (t = 0 \/ t > Z.of_nat (List.length ks) + 1)%Z.
Proof.
  intros Hx Hm Hks. rewrite createDescriptor_multi by assumption. simpl.
  assert (Hn : (Z.of_nat (List.length ks) =? 0)%Z = false).
  { destruct ks; [congruence | reflexivity]. }
  rewrite Hn, orb_false_r.
  destruct (Z.eqb_spec t 0) as [-> | Ht]; simpl.
  - split; [now left | intros _; eexists; reflexivity].
  - destruct (Z.gtb_spec t (Z.of_nat (List.length ks) + 1)) as [Hgt | Hle].
    + split; [intros _; right; lia | intros _; eexists; reflexivity].
    + split; [intros [e He]; discriminate | intros [H0 | Hgt]; lia].
Qed.

(** C3: threshold=3 with two public keys succeeds, threshold=4 and
    threshold=0 fail, but threshold=-1, which lies below the bound
    1 <= threshold of the claim, succeeds and is printed into the
    descriptor. *)
Theorem createDescriptor_multi_threshold_cases (w : World St) :
  let request t :=
    {| CreateDescriptorRequest.type := OVal "MULTI";
       CreateDescriptorRequest.mnemonic := JUndefined;
       CreateDescriptorRequest.password := JUndefined;
       CreateDescriptorRequest.network := JUndefined;
       CreateDescriptorRequest.publicKeys := OVal ["A"; "B"];
       CreateDescriptorRequest.threshold := OVal t;
       CreateDescriptorRequest.xprv := JStr "X";
       CreateDescriptorRequest.path := JUndefined |} in
  createDescriptor _bdk normalize (request (-1)) w =
    (Done (success (JStr "sh(multi(-1X,A,B/84'/1'/0'/0/*))")), w)
  /\ createDescriptor _bdk normalize (request 3) w =
    (Done (success (JStr "sh(multi(3X,A,B/84'/1'/0'/0/*))")), w)
  /\ createDescriptor _bdk normalize (request 4) w =
    (Done (failure normalize (JStr "Thresold value is invalid.")), w)
  /\ createDescriptor _bdk normalize (request 0) w =
    (Done (failure normalize (JStr "Thresold or publicKeys values are invalid.")), w).
Proof.
  intros request. unfold request.
  repeat split; rewrite createDescriptor_multi; reflexivity.
Qed.

(** C8: a "MULTI" request with a supplied xprv [X], no mnemonic, a non-empty
    list [ks] of public keys and a threshold [t] that passes the two tests
    returns "sh(multi(" t X "," ks-joined-by-comma P "))", where P is the
    supplied path, or the default path /84'/1'/0'/0/* when none is supplied.
    The threshold is a safe integer, which the code prints digit for digit. *)
Theorem createDescriptor_multi_descriptor
  (password network mnemonic : JsVal) (X : string) (t : Z) (ks : list string) (w : World St) :
  X <> "" ->
  _exists mnemonic = false ->
  ks <> [] ->
  (t <> 0)%Z ->
  (t <= Z.of_nat (List.length ks) + 1)%Z ->
  isSafeInteger t = true ->
  let request path :=
    {| CreateDescriptorRequest.type := OVal "MULTI";
       CreateDescriptorRequest.mnemonic := mnemonic;
       CreateDescriptorRequest.password := password;
       CreateDescriptorRequest.network := network;
       CreateDescriptorRequest.publicKeys := OVal ks;
       CreateDescriptorRequest.threshold := OVal t;
       CreateDescriptorRequest.xprv := JStr X;
       CreateDescriptorRequest.path := path |} in
  (forall P : string, P <> "" ->
     createDescriptor _bdk normalize (request (JStr P)) w =
       (Done (success (JStr ("sh(multi(" ++ toString (JNum t) ++ X ++ "," ++ join "," ks
                             ++ P ++ "))"))), w))
  /\
  (forall path : JsVal, _exists path = false ->
     createDescriptor _bdk normalize (request path) w =
       (Done (success (JStr ("sh(multi(" ++ toString (JNum t) ++ X ++ "," ++ join "," ks
                             ++ "/84'/1'/0'/0/*" ++ "))"))), w)).
Proof.
  intros HX Hm Hks Ht Hle _ request. unfold request.
  assert (EX : _exists (JStr X) = true)
    by (simpl; apply String.eqb_neq in HX; rewrite HX; reflexivity).
  assert (Hn : (Z.of_nat (List.length ks) =? 0)%Z = false)
    by (destruct ks; [congruence | reflexivity]).
  assert (H0 : (t =? 0)%Z = false) by (apply Z.eqb_neq; assumption).
  assert (Hgt : (t >? Z.of_nat (List.length ks) + 1)%Z = false)
    by (rewrite Z.gtb_ltb; apply Z.ltb_ge; assumption).
  split.
  - intros P HP. rewrite createDescriptor_multi by assumption.
    rewrite H0, Hn, Hgt. simpl.
    apply String.eqb_neq in HP. rewrite HP. reflexivity.
  - intros path Hp. rewrite createDescriptor_multi by assumption.
    rewrite H0, Hn, Hgt, Hp. reflexivity.
Qed.

(** When the native key derivation rejects, [createXprv] logs the error and
    returns the failure envelope. *)
Lemma createXprv_rejected (network mnemonic password e : JsVal) (w : World St) :
  let call := {| method := "getExtendedKeyInfo"; arguments := [network; mnemonic; password] |} in
  fst (_bdk call (engine w)) = Thrown e ->
  createXprv _bdk normalize
    {| CreateExtendedKeyRequest.network := network;
       CreateExtendedKeyRequest.mnemonic := mnemonic;
       CreateExtendedKeyRequest.password := password |} w =
  (Done (failure normalize e),
   {| engine := snd (_bdk call (engine w));
      events := (events w ++ [Native call; ConsoleLog e])%list |}).
Proof.
  intros call H. unfold createXprv, tryCatch, bind. rewrite invoke_spec. fold call.
  rewrite H. unfold console_log, ret. simpl. rewrite <- app_assoc. reflexivity.
Qed.

(** C10, as amended: on the mnemonic path, when the native key derivation
    rejects with [e], the failure is logged and dropped; [createDescriptor]
    reads [undefined] off the failure envelope and prints it where the key
    belongs.  A type other than "MULTI" always gives a success envelope; a
    "MULTI" request gives one when its threshold and public keys pass the two
    tests, and the failure envelope of those tests when they do not.  The
    path is a [printable] value and the printed threshold a safe integer, so
    that the text is the one the code prints. *)
Theorem createDescriptor_drops_key_failure
  (type : optional string) (mnemonic password network xprv path e : JsVal)
  (publicKeys : optional (list string)) (threshold : optional Z) (w : World St) :
  let call := {| method := "getExtendedKeyInfo"; arguments := [network; mnemonic; password] |} in
  let args :=
    {| CreateDescriptorRequest.type := type;
       CreateDescriptorRequest.mnemonic := mnemonic;
       CreateDescriptorRequest.password := password;
       CreateDescriptorRequest.network := network;
       CreateDescriptorRequest.publicKeys := publicKeys;
       CreateDescriptorRequest.threshold := threshold;
       CreateDescriptorRequest.xprv := xprv;
       CreateDescriptorRequest.path := path |} in
  let after :=
    {| engine := snd (_bdk call (engine w));
       events := (events w ++ [Native call; ConsoleLog e])%list |} in
  let P := toString (if _exists path then path else JStr "/84'/1'/0'/0/*") in
  _exists xprv = false ->
  _exists mnemonic = true ->
  _exists network = true ->
  printable path = true ->
  fst (_bdk call (engine w)) = Thrown e ->
  (looseEq type "MULTI" = false ->
     createDescriptor _bdk normalize args w =
       (Done (success (JStr (methodOf type ++ "(" ++ "undefined" ++ P ++ ")"))), after))
  /\
  (forall (t : Z) (ks : list string),
     looseEq type "MULTI" = true -> threshold = OVal t -> publicKeys = OVal ks ->
     (t <> 0)%Z -> ks <> [] -> (t <= Z.of_nat (List.length ks) + 1)%Z ->
     isSafeInteger t = true ->
     createDescriptor _bdk normalize args w =
       (Done (success (JStr ("sh(multi(" ++ toString (JNum t) ++ "undefined" ++ ","
                             ++ join "," ks ++ P ++ "))"))), after))
  /\
  (looseEq type "MULTI" = true ->
   (forall (t : Z) (ks : list string), threshold = OVal t -> publicKeys = OVal ks ->
      t = 0%Z \/ ks = [] \/ (t > Z.of_nat (List.length ks) + 1)%Z) ->
   exists message : string,
     createDescriptor _bdk normalize args w =
       (Done (failure normalize (JStr message)), after)
     /\ (message = "Thresold or publicKeys values are invalid."
         \/ message = "Thresold value is invalid.")).
Proof.
  intros call args after P Hx Hm Hn _ He.
  assert (Hrun : forall k : JsVal -> Async St Response,
    bind (r <- createXprv _bdk normalize
                 {| CreateExtendedKeyRequest.network := network;
                    CreateExtendedKeyRequest.mnemonic := mnemonic;
                    CreateExtendedKeyRequest.password := password |} ;; ret (data r))%async k w
    = k JUndefined after).
  { intros k. unfold bind at 1 2. rewrite (createXprv_rejected network mnemonic password e w He).
    reflexivity. }
  split; [| split].
  - intros Ht. unfold args, createDescriptor, orFailure, tryCatch. simpl.
    rewrite Hx, Hm, Hn. simpl. rewrite Hrun. rewrite Ht. simpl.
    unfold P. destruct (_exists path); reflexivity.
  - intros t ks Ht -> -> H0 Hks Hle _.
    assert (Hlen : (Z.of_nat (List.length ks) =? 0)%Z = false)
      by (destruct ks; [congruence | reflexivity]).
    assert (Hz : (t =? 0)%Z = false) by (apply Z.eqb_neq; assumption).
    assert (Hgt : (t >? Z.of_nat (List.length ks) + 1)%Z = false)
      by (rewrite Z.gtb_ltb; apply Z.ltb_ge; assumption).
    unfold args, createDescriptor, orFailure, tryCatch. simpl.
    rewrite Hx, Hm, Hn. simpl. rewrite Hrun. rewrite Ht. simpl.
    rewrite Hz, Hlen, Hgt. simpl.
    unfold P. destruct (_exists path); reflexivity.
  - intros Ht Hbad.
    unfold args, createDescriptor, orFailure, tryCatch. simpl.
    rewrite Hx, Hm, Hn. simpl. rewrite Hrun. rewrite Ht. simpl.
    destruct threshold as [| | t], publicKeys as [| | ks];
      try (eexists; split; [reflexivity | now left]).
    destruct (Hbad t ks eq_refl eq_refl) as [-> | [-> | Hgt]].
    + eexists; split; [reflexivity | now left].
    + rewrite orb_true_r. eexists; split; [reflexivity | now left].
    + destruct ((t =? 0)%Z || (Z.of_nat (List.length ks) =? 0)%Z).
      * eexists; split; [reflexivity | now left].
      * assert (Hg : (t >? Z.of_nat (List.length ks) + 1)%Z = true)
          by (rewrite Z.gtb_ltb; apply Z.ltb_lt; lia).
        rewrite Hg, orb_true_r. eexists; split; [reflexivity | now right].
Qed.

(** *** createWallet *)

Lemma prefix_char (a c : ascii) (s : string) :
  prefix (String a "") (String c s) = if ascii_dec a c then true else false.
Proof.
  cbn [prefix]. destruct (ascii_dec a c); [destruct s; reflexivity | reflexivity].
Qed.

Lemma includes_space (s : string) :
  includes s " " = true <-> In " "%char (list_ascii_of_string s).
Proof.
  unfold includes. induction s as [| c s IH].
  - cbn. split; [discriminate | tauto].
  - cbn [index list_ascii_of_string In]. rewrite prefix_char.
    destruct (ascii_dec " " c) as [<- | Hc].
    + split; auto.
    + destruct (index 0 " " s).
      * split; [intros _; right; apply IH; reflexivity | reflexivity].
      * split; [discriminate |].
        intros [Heq | Hin]; [congruence | apply IH in Hin; discriminate].
Qed.

Lemma nullish_empty (v : JsVal) :
  nullish v (JStr "") = if _exists v then v else JStr "".
Proof.
  destruct v as [| | n | s | items | props]; try reflexivity.
  simpl. destruct (String.eqb_spec s ""); [subst; reflexivity | reflexivity].
Qed.

(** A request that trips a guard fails with the world untouched. *)
Lemma createWallet_rejects (args : createWalletRequest.t) (w : World St) :
  createWallet_accepts args = false ->
  exists e, createWallet _bdk normalize args w = (Done (failure normalize e), w).
Proof.
  destruct args as [mnemonic descriptor password network url proxy retry timeOut name].
  unfold createWallet_accepts. simpl. intros H. run_facade.
  destruct (_exists (js_of JStr descriptor)), (_exists mnemonic); simpl in *;
    try (eexists; reflexivity).
  - destruct descriptor as [| | d]; simpl in *; try discriminate.
    destruct (includes d " "); [eexists; reflexivity | discriminate].
  - destruct (_exists network); [discriminate | eexists; reflexivity].
Qed.

(** A request that passes the guards reaches the native wallet constructor
    once, with the nine arguments, and relays its answer. *)
Lemma createWallet_calls (args : createWalletRequest.t) (w : World St) :
  createWallet_accepts args = true ->
  createWallet _bdk normalize args w =
    (match fst (_bdk (createWallet_call args) (engine w)) with
     | Done wallet => Done (success wallet)
     | Thrown e => Done (failure normalize e)
     end,
     {| engine := snd (_bdk (createWallet_call args) (engine w));
        events := (events w ++ [Native (createWallet_call args)])%list |}).
Proof.
  destruct args as [mnemonic descriptor password network url proxy retry timeOut name].
  unfold createWallet_accepts, createWallet_call. simpl. intros H.
  unfold createWallet, orFailure, tryCatch, bind.
  rewrite <- !nullish_empty.
  destruct (_exists (js_of JStr descriptor)) eqn:Hd, (_exists mnemonic) eqn:Hm;
    simpl in *; try discriminate.
  - destruct descriptor as [| | d]; simpl in *; try discriminate.
    destruct (includes d " "); [discriminate |]. simpl.
    rewrite invoke_spec. destruct (_bdk _ (engine w)) as [[v | e] s]; reflexivity.
  - destruct (_exists network); [| discriminate]. simpl.
    rewrite invoke_spec. destruct (_bdk _ (engine w)) as [[v | e] s]; reflexivity.
Qed.

(** The guards accept exactly the requests that meet the preconditions. *)
Lemma createWallet_accepts_iff (args : createWalletRequest.t) :
  createWallet_accepts args = true <-> createWallet_preconditions args.
Proof.
  destruct args as [mnemonic descriptor password network url proxy retry timeOut name].
  unfold createWallet_accepts, createWallet_preconditions. simpl.
  destruct (_exists (js_of JStr descriptor)) eqn:Hd, (_exists mnemonic) eqn:Hm; simpl.
  - split; [discriminate | intros [H _]; discriminate].
  - destruct descriptor as [| | d]; simpl in Hd; try discriminate.
    rewrite andb_true_r. split.
    + intros H. repeat split; try discriminate.
      intros s [= <-] _ Hin. apply includes_space in Hin. rewrite Hin in H. discriminate.
    + intros (_ & H & _). destruct (includes d " ") eqn:Hi; [| reflexivity].
      exfalso. apply (H d eq_refl eq_refl). apply includes_space. assumption.
  - destruct (_exists network); simpl.
    + split; [| reflexivity]. intros _. repeat split.
      intros s _ [=].
    + split; [discriminate | intros (_ & _ & H); specialize (H eq_refl); discriminate].
  - split; [discriminate | intros [H _]; discriminate].
Qed.

(** C6: [createWallet] returns a failure envelope with no call to the native
    wallet constructor exactly when a precondition is violated: not exactly
    one of descriptor and mnemonic supplied, a space inside the supplied
    descriptor, or the mnemonic path without a network. *)
Theorem createWallet_fails_without_call_iff (args : createWalletRequest.t) (w : World St) :
  ((exists e, fst (createWallet _bdk normalize args w) = Done (Failure e))
   /\ events (snd (createWallet _bdk normalize args w)) = events w)
  <-> ~ createWallet_preconditions args.
Proof.
  rewrite <- createWallet_accepts_iff.
  destruct (createWallet_accepts args) eqn:Hacc.
  - rewrite (createWallet_calls args w Hacc). simpl. split.
    + intros [_ Hev]. exfalso.
      apply (f_equal (@List.length Event)) in Hev.
      rewrite length_app in Hev. simpl in Hev. lia.
    + intros H. exfalso. apply H. reflexivity.
  - destruct (createWallet_rejects args w Hacc) as [e He]. rewrite He. simpl. split.
    + intros _. discriminate.
    + intros _. split; [exists (normalize e); reflexivity | reflexivity].
Qed.

(** C7: a request that meets the preconditions makes one native call,
    [createWallet] with nine positional arguments in the order mnemonic,
    password, network, blockChainConfigUrl, blockChainSocket5, retry, timeOut,
    blockChainName, descriptor, each absent field replaced by the empty
    string; the value the native module returns comes back in a success
    envelope (and its rejection in a failure envelope). *)
Theorem createWallet_forwards_nine (args : createWalletRequest.t) (w : World St) :
  createWallet_preconditions args ->
  let orEmpty v := if _exists v then v else JStr "" in
  let call :=
    {| method := "createWallet";
       arguments :=
         [ orEmpty (createWalletRequest.mnemonic args);
           orEmpty (createWalletRequest.password args);
           orEmpty (createWalletRequest.network args);
           orEmpty (createWalletRequest.blockChainConfigUrl args);
           orEmpty (createWalletRequest.blockChainSocket5 args);
           orEmpty (createWalletRequest.retry args);
           orEmpty (createWalletRequest.timeOut args);
           orEmpty (createWalletRequest.blockChainName args);
           orEmpty (js_of JStr (createWalletRequest.descriptor args)) ] |} in
  List.length (arguments call) = 9%nat
  /\ snd (createWallet _bdk normalize args w) =
       {| engine := snd (_bdk call (engine w));
          events := (events w ++ [Native call])%list |}
  /\ (forall wallet, fst (_bdk call (engine w)) = Done wallet ->
        fst (createWallet _bdk normalize args w) = Done (success wallet))
  /\ (forall e, fst (_bdk call (engine w)) = Thrown e ->
        fst (createWallet _bdk normalize args w) = Done (failure normalize e)).
Proof.
  intros Hpre orEmpty call.
  apply createWallet_accepts_iff in Hpre.
  rewrite (createWallet_calls args w Hpre).
  change (createWallet_call args) with call. simpl.
  repeat split.
  - intros wallet ->. reflexivity.
  - intros e ->. reflexivity.
Qed.

(** *** getTransactions *)

(** C9: [getTransactions] calls the native confirmed-transactions method
    first and the pending-transactions method second, the second from the
    engine state the first one left; two answers come back as the record
    [{confirmed, pending}] in a success envelope, and a rejection of either
    call comes back as a failure envelope (after a rejected first call the
    second is not made). *)
Theorem getTransactions_sequence (w : World St) :
  let confirmedCall := {| method := "getConfirmedTransactions"; arguments := [] |} in
  let pendingCall := {| method := "getPendingTransactions"; arguments := [] |} in
  let first := _bdk confirmedCall (engine w) in
  let second := _bdk pendingCall (snd first) in
  (forall confirmed pending,
     fst first = Done confirmed -> fst second = Done pending ->
     getTransactions _bdk normalize w =
       (Done (success (JObj [("confirmed", confirmed); ("pending", pending)])),
        {| engine := snd second;
           events := (events w ++ [Native confirmedCall; Native pendingCall])%list |}))
  /\ (forall e,
     fst first = Thrown e ->
     getTransactions _bdk normalize w =
       (Done (failure normalize e),
        {| engine := snd first; events := (events w ++ [Native confirmedCall])%list |}))
  /\ (forall confirmed e,
     fst first = Done confirmed -> fst second = Thrown e ->
     getTransactions _bdk normalize w =
       (Done (failure normalize e),
        {| engine := snd second;
           events := (events w ++ [Native confirmedCall; Native pendingCall])%list |})).
Proof.
  intros confirmedCall pendingCall first second.
  unfold getTransactions, orFailure, tryCatch, bind.
  rewrite invoke_spec. fold confirmedCall. fold first.
  repeat split.
  - intros confirmed pending H1 H2. rewrite H1.
    rewrite invoke_spec. simpl. fold pendingCall. fold second. rewrite H2.
    unfold ret. simpl. rewrite <- app_assoc. reflexivity.
  - intros e H1. rewrite H1. reflexivity.
  - intros confirmed e H1 H2. rewrite H1.
    rewrite invoke_spec. simpl. fold pendingCall. fold second. rewrite H2.
    simpl. rewrite <- app_assoc. reflexivity.
Qed.

End Properties.

(** ** The theorems at work on concrete requests *)

(** C4 at work: the network "bitcoin" reaches the native module as "testnet". *)
Lemma generateMnemonic_network_bitcoin :
  exists wordCount,
    events (snd (generateMnemonic counting messageOf
                   (Some {| GenerateMnemonicRequest.entropy := OUndefined;
                            GenerateMnemonicRequest.length := JUndefined;
                            GenerateMnemonicRequest.network := JStr "bitcoin" |})
                   (start 0%Z))) =
      [Native {| method := "generateMnemonic"; arguments := [wordCount; JStr "testnet"] |}].
Proof.
  destruct (generateMnemonic_network Z counting messageOf
              {| GenerateMnemonicRequest.entropy := OUndefined;
                 GenerateMnemonicRequest.length := JUndefined;
                 GenerateMnemonicRequest.network := JStr "bitcoin" |}
              (start 0%Z)) as [wordCount [Hsupplied _]].
  exists wordCount. apply Hsupplied. reflexivity.
Defined.

(** C5 at work: [createDescriptor({})] and
    [createDescriptor({xprv: "X", mnemonic: "seed"})]. *)
Lemma createDescriptor_one_key_source_examples :
  let request xprv mnemonic :=
    {| CreateDescriptorRequest.type := OUndefined;
       CreateDescriptorRequest.mnemonic := mnemonic;
       CreateDescriptorRequest.password := JUndefined;
       CreateDescriptorRequest.network := JUndefined;
       CreateDescriptorRequest.publicKeys := OUndefined;
       CreateDescriptorRequest.threshold := OUndefined;
       CreateDescriptorRequest.xprv := xprv;
       CreateDescriptorRequest.path := JUndefined |} in
  createDescriptor counting messageOf (request JUndefined JUndefined) (start 0%Z) =
    (Done (Failure (JObj [("message", JStr "Required param mnemonic or xprv is missing.")])),
     start 0%Z)
  /\ createDescriptor counting messageOf (request (JStr "X") (JStr "seed")) (start 0%Z) =
    (Done (Failure (JObj [("message",
                           JStr "Only one parameter is required either mnemonic or xprv.")])),
     start 0%Z).
Proof.
  intros request. split.
  - apply (proj1 (createDescriptor_one_key_source Z counting messageOf
                    (request JUndefined JUndefined) (start 0%Z))); reflexivity.
  - apply (proj2 (createDescriptor_one_key_source Z counting messageOf
                    (request (JStr "X") (JStr "seed")) (start 0%Z))); reflexivity.
Defined.

(** C7 at work: a descriptor-only request; eight empty strings and the
    descriptor reach the native module, whose answer is relayed. *)
Lemma createWallet_descriptor_only :
  let args :=
    {| createWalletRequest.mnemonic := JUndefined;
       createWalletRequest.descriptor := OVal "wpkh(X/84'/1'/0'/0/*)";
       createWalletRequest.password := JUndefined;
       createWalletRequest.network := JNull;
       createWalletRequest.blockChainConfigUrl := JUndefined;
       createWalletRequest.blockChainSocket5 := JUndefined;
       createWalletRequest.retry := JUndefined;
       createWalletRequest.timeOut := JUndefined;
       createWalletRequest.blockChainName := JUndefined |} in
  let call :=
    {| method := "createWallet";
       arguments := [JStr ""; JStr ""; JStr ""; JStr ""; JStr ""; JStr ""; JStr ""; JStr "";
                     JStr "wpkh(X/84'/1'/0'/0/*)"] |} in
  snd (createWallet counting messageOf args (start 0%Z)) =
    {| engine := 1%Z; events := [Native call] |}
  /\ fst (createWallet counting messageOf args (start 0%Z)) =
    Done (Success (JObj [("method", JStr "createWallet"); ("call", JNum 0)])).
Proof.
  intros args call.
  assert (Hpre : createWallet_preconditions args)
    by (apply createWallet_accepts_iff; reflexivity).
  destruct (createWallet_forwards_nine Z counting messageOf args (start 0%Z) Hpre)
    as (_ & Hworld & Hanswer & _).
  split.
  - rewrite Hworld. reflexivity.
  - apply Hanswer. reflexivity.
Defined.

(** C8 at work: threshold=2, publicKeys=["A","B"], xprv="X", default path. *)
Lemma createDescriptor_multi_2_of_A_B :
  createDescriptor counting messageOf
    {| CreateDescriptorRequest.type := OVal "MULTI";
       CreateDescriptorRequest.mnemonic := JUndefined;
       CreateDescriptorRequest.password := JUndefined;
       CreateDescriptorRequest.network := JUndefined;
       CreateDescriptorRequest.publicKeys := OVal ["A"; "B"];
       CreateDescriptorRequest.threshold := OVal 2%Z;
       CreateDescriptorRequest.xprv := JStr "X";
       CreateDescriptorRequest.path := JUndefined |} (start 0%Z) =
  (Done (Success (JStr "sh(multi(2X,A,B/84'/1'/0'/0/*))")), start 0%Z).
Proof.
  apply (proj2 (createDescriptor_multi_descriptor Z counting messageOf
                  JUndefined JUndefined JUndefined "X" 2%Z ["A"; "B"] (start 0%Z)
                  ltac:(discriminate) ltac:(reflexivity) ltac:(discriminate)
                  ltac:(lia) ltac:(simpl; lia) ltac:(reflexivity)) JUndefined).
  reflexivity.
Defined.

(** C9 at work: the counting module answers the confirmed call as call 0 and
    the pending call as call 1; a module whose pending call is rejected makes
    the whole operation fail after both calls. *)
Lemma getTransactions_examples :
  getTransactions counting messageOf (start 0%Z) =
    (Done (Success (JObj
       [("confirmed", JObj [("method", JStr "getConfirmedTransactions"); ("call", JNum 0)]);
        ("pending", JObj [("method", JStr "getPendingTransactions"); ("call", JNum 1)])])),
     {| engine := 2%Z;
        events := [Native {| method := "getConfirmedTransactions"; arguments := [] |};
                   Native {| method := "getPendingTransactions"; arguments := [] |}] |})
  /\ getTransactions (pendingFails (JStr "offline")) messageOf (start tt) =
    (Done (Failure (JObj [("message", JStr "offline")])),
     {| engine := tt;
        events := [Native {| method := "getConfirmedTransactions"; arguments := [] |};
                   Native {| method := "getPendingTransactions"; arguments := [] |}] |}).
Proof.
  split.
  - apply (proj1 (getTransactions_sequence Z counting messageOf (start 0%Z))); reflexivity.
  - apply (proj2 (proj2 (getTransactions_sequence unit (pendingFails (JStr "offline"))
                           messageOf (start tt))) (JArr []) (JStr "offline")); reflexivity.
Defined.

(** C10 at work: the key derivation is rejected with "no key" and a "wpkh"
    descriptor with the text undefined for a key comes back as a success. *)
Lemma createDescriptor_drops_key_failure_wpkh :
  createDescriptor (rejecting (JStr "no key")) messageOf
    {| CreateDescriptorRequest.type := OVal "wpkh";
       CreateDescriptorRequest.mnemonic := JStr "seed";
       CreateDescriptorRequest.password := JUndefined;
       CreateDescriptorRequest.network := JStr "testnet";
       CreateDescriptorRequest.publicKeys := OUndefined;
       CreateDescriptorRequest.threshold := OUndefined;
       CreateDescriptorRequest.xprv := JUndefined;
       CreateDescriptorRequest.path := JUndefined |} (start tt) =
  (Done (Success (JStr "wpkh(undefined/84'/1'/0'/0/*)")),
   {| engine := tt;
      events := [Native {| method := "getExtendedKeyInfo";
                           arguments := [JStr "testnet"; JStr "seed"; JUndefined] |};
                 ConsoleLog (JStr "no key")] |}).
Proof.
  apply (proj1 (createDescriptor_drops_key_failure unit (rejecting (JStr "no key")) messageOf
                  (OVal "wpkh") (JStr "seed") JUndefined (JStr "testnet") JUndefined JUndefined
                  (JStr "no key") OUndefined OUndefined (start tt)
                  ltac:(reflexivity) ltac:(reflexivity) ltac:(reflexivity) ltac:(reflexivity)
                  ltac:(reflexivity)));
    reflexivity.
Defined.

(** C10 as it was stated fails: the key derivation is rejected, and the
    "MULTI" request without a threshold comes back as a failure envelope, the
    one of the multisig test. *)
Lemma createDescriptor_key_failure_then_multi_rejection :
  let args :=
    {| CreateDescriptorRequest.type := OVal "MULTI";
       CreateDescriptorRequest.mnemonic := JStr "seed";
       CreateDescriptorRequest.password := JUndefined;
       CreateDescriptorRequest.network := JStr "testnet";
       CreateDescriptorRequest.publicKeys := OUndefined;
       CreateDescriptorRequest.threshold := OUndefined;
       CreateDescriptorRequest.xprv := JUndefined;
       CreateDescriptorRequest.path := JUndefined |} in
  fst (rejecting (JStr "no key")
         {| method := "getExtendedKeyInfo";
            arguments := [JStr "testnet"; JStr "seed"; JUndefined] |} tt) = Thrown (JStr "no key")
  /\ fst (createDescriptor (rejecting (JStr "no key")) messageOf args (start tt)) =
       Done (Failure (JObj [("message", JStr "Thresold or publicKeys values are invalid.")]))
  /\ ~ (exists descriptor,
          fst (createDescriptor (rejecting (JStr "no key")) messageOf args (start tt)) =
            Done (Success descriptor)).
Proof.
  intros args. split; [reflexivity | split; [reflexivity |]].
  intros [descriptor H]. discriminate H.
Qed.

(** ** Further properties of the facade *)

(** Printing an integer loses nothing: equal decimal texts, equal integers. *)
Lemma string_of_Z_inj (a b : Z) : string_of_Z a = string_of_Z b -> a = b.
Proof.
  unfold string_of_Z. intros H.
  assert (P : forall z, NilZero.int_of_string (NilZero.string_of_int (Z.to_int z))
                        = Some (Z.to_int z)).
  { intros z. apply NilZero.isi; destruct z; simpl; try discriminate;
      intros [= Hnil]; apply (DecimalPos.Unsigned.to_uint_nonnil _ Hnil). }
  apply DecimalZ.to_int_inj.
  assert (E : Some (Z.to_int a) = Some (Z.to_int b)) by (rewrite <- !P, H; reflexivity).
  now injection E.
Qed.

(** The table of [generateMnemonic] read with a printed number as the key:
    the five entropies and nothing else. *)
Lemma entropyToLength_lookup (e : Z) :
  lookup (string_of_Z e) entropyToLength =
    if (e =? 128)%Z then JNum 12
    else if (e =? 160)%Z then JNum 15
    else if (e =? 192)%Z then JNum 18
    else if (e =? 224)%Z then JNum 21
    else if (e =? 256)%Z then JNum 24
    else JUndefined.
Proof.
  assert (K : forall k : Z, (string_of_Z k =? string_of_Z e) = (e =? k)%Z).
  { intros k. destruct (Z.eqb_spec e k) as [-> | Hne].
    - apply String.eqb_refl.
    - apply String.eqb_neq. intros H. apply string_of_Z_inj in H. congruence. }
  unfold entropyToLength, lookup.
  change "128" with (string_of_Z 128). change "160" with (string_of_Z 160).
  change "192" with (string_of_Z 192). change "224" with (string_of_Z 224).
  change "256" with (string_of_Z 256).
  rewrite !K. reflexivity.
Qed.

Section FurtherProperties.

Variable St : Type.
Variable _bdk : NativeCall -> St -> Completion JsVal * St.
Variable normalize : JsVal -> JsVal.

(** What one guarded native call comes to: the call is traced, the engine
    moves on, and the answer is wrapped. *)
Lemma relay_spec (name : string) (args : list JsVal) (w : World St) :
  orFailure St normalize (bind (invoke _bdk name args) (fun v => ret (success v))) w =
    (match fst (_bdk {| method := name; arguments := args |} (engine w)) with
     | Done v => Done (success v)
     | Thrown e => Done (failure normalize e)
     end,
     {| engine := snd (_bdk {| method := name; arguments := args |} (engine w));
        events := (events w ++ [Native {| method := name; arguments := args |}])%list |}).
Proof.
  unfold orFailure, tryCatch, bind. rewrite invoke_spec.
  destruct (_bdk _ (engine w)) as [[v | e] s]; reflexivity.
Qed.

(** *** generateMnemonic *)

(** When an entropy and a length are both given, the length is ignored: the
    word count sent to the native module is the table's value for the five
    entropies 128, 160, 192, 224 and 256, and [undefined] for every other
    entropy, whatever the length. *)
Theorem generateMnemonic_entropy_overrides_length
  (e : Z) (length network : JsVal) (w : World St) :
  e <> 0%Z -> truthy length = true ->
  events (snd (generateMnemonic _bdk normalize
                 (Some {| GenerateMnemonicRequest.entropy := OVal e;
                          GenerateMnemonicRequest.length := length;
                          GenerateMnemonicRequest.network := network |}) w)) =
    (events w ++
     [Native {| method := "generateMnemonic";
                arguments :=
                  [ if (e =? 128)%Z then JNum 12
                    else if (e =? 160)%Z then JNum 15
                    else if (e =? 192)%Z then JNum 18
                    else if (e =? 224)%Z then JNum 21
                    else if (e =? 256)%Z then JNum 24
                    else JUndefined;
                    if _exists network then JStr "testnet" else network ] |}])%list.
Proof.
  intros He Hl. rewrite generateMnemonic_events.
  cbn [GenerateMnemonicRequest.entropy GenerateMnemonicRequest.length
       GenerateMnemonicRequest.network js_of truthy toString].
  apply Z.eqb_neq in He. rewrite He, Hl.
  cbn [negb andb]. rewrite entropyToLength_lookup. reflexivity.
Qed.

(** [generateMnemonic] checks nothing itself: for every request, and for the
    call without a request, it makes exactly one native call, and its
    envelope is a failure only when that call is rejected. *)
Theorem generateMnemonic_one_call (args : option GenerateMnemonicRequest.t) (w : World St) :
  exists wordCount network,
    let call := {| method := "generateMnemonic"; arguments := [wordCount; network] |} in
    generateMnemonic _bdk normalize args w =
      (match fst (_bdk call (engine w)) with
       | Done seed => Done (Success seed)
       | Thrown e => Done (failure normalize e)
       end,
       {| engine := snd (_bdk call (engine w));
          events := (events w ++ [Native call])%list |}).
Proof.
  unfold generateMnemonic. do 2 eexists. cbv zeta. apply relay_spec.
Qed.

(** *** createExtendedKey and createXprv *)

(** [createXprv] against [createExtendedKey] on the same request and world.
    Both make the one call [getExtendedKeyInfo(network, mnemonic, password)].
    On an object, [createXprv] returns its [xprv] property ([undefined] when
    there is none); on a rejection both fail and [createXprv] logs the error;
    but when the native module answers [undefined] or [null],
    [createExtendedKey] succeeds while [createXprv] fails with a logged
    TypeError. *)
Theorem createXprv_against_createExtendedKey
  (args : CreateExtendedKeyRequest.t) (w : World St) :
  let call :=
    {| method := "getExtendedKeyInfo";
       arguments := [CreateExtendedKeyRequest.network args;
                     CreateExtendedKeyRequest.mnemonic args;
                     CreateExtendedKeyRequest.password args] |} in
  let after := {| engine := snd (_bdk call (engine w));
                  events := (events w ++ [Native call])%list |} in
  let logged e := {| engine := snd (_bdk call (engine w));
                     events := (events w ++ [Native call; ConsoleLog e])%list |} in
  (forall props, fst (_bdk call (engine w)) = Done (JObj props) ->
     createExtendedKey _bdk normalize args w = (Done (Success (JObj props)), after)
     /\ createXprv _bdk normalize args w = (Done (Success (lookup "xprv" props)), after))
  /\ (forall e, fst (_bdk call (engine w)) = Thrown e ->
     createExtendedKey _bdk normalize args w = (Done (failure normalize e), after)
     /\ createXprv _bdk normalize args w = (Done (failure normalize e), logged e))
  /\ (forall v, v = JUndefined \/ v = JNull -> fst (_bdk call (engine w)) = Done v ->
     createExtendedKey _bdk normalize args w = (Done (Success v), after)
     /\ createXprv _bdk normalize args w = (Done (failure normalize typeError), logged typeError)).
Proof.
  destruct args as [network mnemonic password]. simpl.
  unfold createExtendedKey, createXprv. cbv zeta.
  rewrite relay_spec. unfold tryCatch, bind. rewrite invoke_spec.
  repeat split.
  - rewrite H. reflexivity.
  - rewrite H. reflexivity.
  - rewrite H. reflexivity.
  - rewrite H. unfold console_log, ret. simpl. rewrite <- app_assoc. reflexivity.
  - rewrite H0. reflexivity.
  - rewrite H0. destruct H; subst v; unfold console_log, ret; simpl;
      rewrite <- app_assoc; reflexivity.
Qed.

(** *** getTransactions *)

(** [getTransactions] is [getConfirmedTransactions] followed, when that
    succeeds, by [getPendingTransactions] in the world it left: the first
    failure is the result, and two successes are paired up. *)
Theorem getTransactions_composes (w : World St) :
  getTransactions _bdk normalize w =
    match getConfirmedTransactions _bdk normalize w with
    | (Done (Success confirmed), w1) =>
        match getPendingTransactions _bdk normalize w1 with
        | (Done (Success pending), w2) =>
            (Done (Success (JObj [("confirmed", confirmed); ("pending", pending)])), w2)
        | failed => failed
        end
    | failed => failed
    end.
Proof.
  unfold getConfirmedTransactions, getPendingTransactions. rewrite !relay_spec.
  unfold getTransactions, orFailure, tryCatch, bind. rewrite invoke_spec.
  destruct (_bdk _ (engine w)) as [[confirmed | e] s1]; simpl; [| reflexivity].
  rewrite invoke_spec. simpl.
  destruct (_bdk _ s1) as [[pending | e] s2]; simpl; rewrite <- app_assoc; reflexivity.
Qed.

(** *** createDescriptor *)

(** [createDescriptor] laid out: the two guards on the key source, then
    either the supplied xprv or the one [createXprv] derives, and the
    descriptor built from it. *)
Lemma createDescriptor_unfold (args : CreateDescriptorRequest.t) (w : World St) :
  let xprv := CreateDescriptorRequest.xprv args in
  let mnemonic := CreateDescriptorRequest.mnemonic args in
  let network := CreateDescriptorRequest.network args in
  let build key :=
    match buildDescriptor (CreateDescriptorRequest.type args)
            (CreateDescriptorRequest.threshold args)
            (CreateDescriptorRequest.publicKeys args) key
            (CreateDescriptorRequest.path args) with
    | Done r => Done r
    | Thrown e => Done (failure normalize e)
    end in
  createDescriptor _bdk normalize args w =
    if negb (_exists xprv) && negb (_exists mnemonic)
    then (Done (failure normalize (JStr "Required param mnemonic or xprv is missing.")), w)
    else if _exists xprv && _exists mnemonic
    then (Done (failure normalize
                  (JStr "Only one parameter is required either mnemonic or xprv.")), w)
    else if _exists xprv then (build xprv, w)
    else if negb (_exists mnemonic) || negb (_exists network)
    then (Done (failure normalize
                  (JStr "One or more required parameters are emtpy(Mnemonic, Network).")), w)
    else
      (build (data match fst (createXprv _bdk normalize
                                {| CreateExtendedKeyRequest.network := network;
                                   CreateExtendedKeyRequest.mnemonic := mnemonic;
                                   CreateExtendedKeyRequest.password :=
                                     CreateDescriptorRequest.password args |} w) with
                   | Done r => r
                   | Thrown _ => Failure JUndefined
                   end),
       snd (createXprv _bdk normalize
              {| CreateExtendedKeyRequest.network := network;
                 CreateExtendedKeyRequest.mnemonic := mnemonic;
                 CreateExtendedKeyRequest.password :=
                   CreateDescriptorRequest.password args |} w)).
Proof.
  destruct args as [type mnemonic password network publicKeys threshold xprv path].
  cbn [CreateDescriptorRequest.xprv CreateDescriptorRequest.mnemonic
       CreateDescriptorRequest.network CreateDescriptorRequest.type
       CreateDescriptorRequest.threshold CreateDescriptorRequest.publicKeys
       CreateDescriptorRequest.path CreateDescriptorRequest.password].
  cbv zeta.
  assert (Tail : forall (key : JsVal) (useMnemonic : bool) (w1 : World St),
    (useMnemonic = false -> _exists key = true) ->
    tryCatch
      (if negb useMnemonic && negb (_exists key) then throw (JStr "XPRV is required") else
       let path0 := if negb (_exists path) then JStr "/84'/1'/0'/0/*" else path in
       if negb (looseEq type "MULTI") then
         ret (success (JStr (methodOf type ++ "(" ++ toString key ++ toString path0 ++ ")")))
       else
         match threshold, publicKeys with
         | OVal threshold0, OVal publicKeys0 =>
             let length := Z.of_nat (List.length publicKeys0) in
             if (threshold0 =? 0)%Z || (length =? 0)%Z
             then throw (JStr "Thresold or publicKeys values are invalid.") else
             if (threshold0 =? 0)%Z || (threshold0 >? length + 1)%Z
             then throw (JStr "Thresold value is invalid.") else
             ret (success (JStr ("sh(multi(" ++ toString (JNum threshold0) ++ toString key
                                 ++ "," ++ join "," publicKeys0 ++ toString path0 ++ "))")))
         | _, _ => throw (JStr "Thresold or publicKeys values are invalid.")
         end)
      (fun e => ret (failure normalize e)) w1
    = (match buildDescriptor type threshold publicKeys key path with
       | Done r => Done r
       | Thrown e => Done (failure normalize e)
       end, w1)).
  { intros key useMnemonic w1 Hkey. unfold tryCatch, buildDescriptor.
    assert (G : negb useMnemonic && negb (_exists key) = false)
      by (destruct useMnemonic; [reflexivity | rewrite Hkey by reflexivity; reflexivity]).
    rewrite G. cbv zeta.
    destruct (negb (looseEq type "MULTI")); [reflexivity |].
    destruct threshold as [| | t], publicKeys as [| | ks]; try reflexivity.
    destruct ((t =? 0)%Z || (Z.of_nat (List.length ks) =? 0)%Z); [reflexivity |].
    destruct ((t =? 0)%Z || (t >? Z.of_nat (List.length ks) + 1)%Z); reflexivity. }
  unfold createDescriptor, orFailure.
  cbv beta iota zeta delta [CreateDescriptorRequest.xprv CreateDescriptorRequest.path].
  destruct (_exists xprv) eqn:Hx, (_exists mnemonic) eqn:Hm; cbn [negb andb orb].
  - reflexivity.
  - unfold tryCatch at 1. unfold bind at 1. unfold ret at 1.
    apply (Tail xprv false w). intros _. exact Hx.
  - destruct (_exists network) eqn:Hn; cbn [negb andb orb]; [| reflexivity].
    unfold tryCatch at 1. unfold bind at 1 2.
    destruct (createXprv _bdk normalize _ w) as [[r | e] w1] eqn:Hc.
    + unfold ret at 1. cbn [fst snd]. apply (Tail (data r) true w1). discriminate.
    + exfalso. revert Hc. unfold createXprv, tryCatch, bind. rewrite invoke_spec.
      destruct (fst (_bdk _ (engine w))) as [keyInfo | e0]; cbn.
      * destruct keyInfo; cbn; discriminate.
      * discriminate.
  - reflexivity.
Qed.

(** What [createXprv] returns, by the answer of the native module. *)
Lemma createXprv_outcome (network mnemonic password : JsVal) (w : World St) :
  let call := {| method := "getExtendedKeyInfo"; arguments := [network; mnemonic; password] |} in
  let after := {| engine := snd (_bdk call (engine w));
                  events := (events w ++ [Native call])%list |} in
  let logged e := {| engine := snd (_bdk call (engine w));
                     events := (events w ++ [Native call; ConsoleLog e])%list |} in
  createXprv _bdk normalize
    {| CreateExtendedKeyRequest.network := network;
       CreateExtendedKeyRequest.mnemonic := mnemonic;
       CreateExtendedKeyRequest.password := password |} w =
    match fst (_bdk call (engine w)) with
    | Done (JObj props) => (Done (Success (lookup "xprv" props)), after)
    | Done JUndefined | Done JNull => (Done (failure normalize typeError), logged typeError)
    | Done _ => (Done (Success JUndefined), after)
    | Thrown e => (Done (failure normalize e), logged e)
    end.
Proof.
  intros call after logged. unfold createXprv, tryCatch, bind. rewrite invoke_spec.
  fold call. unfold after, logged.
  destruct (fst (_bdk call (engine w))) as [[| | n | s | items | props] | e];
    unfold console_log, ret; simpl; rewrite <- ?app_assoc; reflexivity.
Qed.

(** [createDescriptor] reaches the native module exactly on the mnemonic
    path: with no xprv, a mnemonic and a network it makes the one call
    [getExtendedKeyInfo(network, mnemonic, password)], followed at most by a
    log line; in every other case it leaves the world as it found it. *)
Theorem createDescriptor_native_call (args : CreateDescriptorRequest.t) (w : World St) :
  let call :=
    {| method := "getExtendedKeyInfo";
       arguments := [CreateDescriptorRequest.network args;
                     CreateDescriptorRequest.mnemonic args;
                     CreateDescriptorRequest.password args] |} in
  let derives :=
    negb (_exists (CreateDescriptorRequest.xprv args))
    && _exists (CreateDescriptorRequest.mnemonic args)
    && _exists (CreateDescriptorRequest.network args) in
  let w' := snd (createDescriptor _bdk normalize args w) in
  if derives
  then engine w' = snd (_bdk call (engine w))
       /\ (events w' = (events w ++ [Native call])%list
           \/ exists e, events w' = (events w ++ [Native call; ConsoleLog e])%list)
  else w' = w.
Proof.
  intros call derives w'. unfold w', derives. rewrite createDescriptor_unfold.
  destruct (_exists (CreateDescriptorRequest.xprv args)),
           (_exists (CreateDescriptorRequest.mnemonic args));
    cbn [negb andb orb fst snd]; try reflexivity.
  destruct (_exists (CreateDescriptorRequest.network args));
    cbn [negb andb orb fst snd]; try reflexivity.
  rewrite createXprv_outcome. fold call.
  destruct (fst (_bdk call (engine w))) as [[| | n | s | items | props] | e];
    cbn [fst snd engine events]; split; try reflexivity; eauto.
Qed.

(** A mnemonic without a network is refused before the native module is
    asked for a key: the failure names the two parameters and the world is
    unchanged. *)
Theorem createDescriptor_mnemonic_needs_network (args : CreateDescriptorRequest.t) (w : World St) :
  _exists (CreateDescriptorRequest.xprv args) = false ->
  _exists (CreateDescriptorRequest.mnemonic args) = true ->
  _exists (CreateDescriptorRequest.network args) = false ->
  createDescriptor _bdk normalize args w =
    (Done (failure normalize
             (JStr "One or more required parameters are emtpy(Mnemonic, Network).")), w).
Proof.
  intros Hx Hm Hn. rewrite createDescriptor_unfold. rewrite Hx, Hm, Hn. reflexivity.
Qed.

(** Deriving from a mnemonic is [createXprv] followed by the xprv path: when
    [createXprv] succeeds with a key that counts as supplied, the result is
    that of the same request with this key as its xprv and no mnemonic, run
    in the world [createXprv] left. *)
Theorem createDescriptor_mnemonic_composes
  (type : optional string) (mnemonic password network xprv path key : JsVal)
  (publicKeys : optional (list string)) (threshold : optional Z) (w w1 : World St) :
  _exists xprv = false ->
  _exists mnemonic = true ->
  _exists network = true ->
  createXprv _bdk normalize
    {| CreateExtendedKeyRequest.network := network;
       CreateExtendedKeyRequest.mnemonic := mnemonic;
       CreateExtendedKeyRequest.password := password |} w = (Done (Success key), w1) ->
  _exists key = true ->
  createDescriptor _bdk normalize
    (CreateDescriptorRequest.Build_t type mnemonic password network publicKeys threshold xprv path) w
  = createDescriptor _bdk normalize
    (CreateDescriptorRequest.Build_t type JUndefined password network publicKeys threshold key path) w1.
Proof.
  intros Hx Hm Hn Hc Hk. rewrite !createDescriptor_unfold.
  cbn [CreateDescriptorRequest.xprv CreateDescriptorRequest.mnemonic
       CreateDescriptorRequest.network CreateDescriptorRequest.type
       CreateDescriptorRequest.threshold CreateDescriptorRequest.publicKeys
       CreateDescriptorRequest.path CreateDescriptorRequest.password].
  rewrite Hx, Hm, Hn, Hk, Hc. reflexivity.
Qed.

(** On the mnemonic path with a type other than "MULTI", the key printed is
    the [xprv] property of the object the native module returns, as
    [String(...)] prints it: a key-info object without that property gives
    a success envelope around a descriptor with the text undefined.  The
    property and the path are [printable] values. *)
Theorem createDescriptor_prints_key_info
  (type : optional string) (mnemonic password network xprv path : JsVal)
  (publicKeys : optional (list string)) (threshold : optional Z)
  (props : list (string * JsVal)) (w : World St) :
  let call := {| method := "getExtendedKeyInfo"; arguments := [network; mnemonic; password] |} in
  _exists xprv = false ->
  _exists mnemonic = true ->
  _exists network = true ->
  looseEq type "MULTI" = false ->
  fst (_bdk call (engine w)) = Done (JObj props) ->
  printable (lookup "xprv" props) = true ->
  printable path = true ->
  createDescriptor _bdk normalize
    (CreateDescriptorRequest.Build_t type mnemonic password network publicKeys threshold xprv path) w
  = (Done (Success (JStr (methodOf type ++ "(" ++ toString (lookup "xprv" props)
                          ++ toString (if _exists path then path else JStr "/84'/1'/0'/0/*")
                          ++ ")"))),
     {| engine := snd (_bdk call (engine w));
        events := (events w ++ [Native call])%list |}).
Proof.
  intros call Hx Hm Hn Ht Hk _ _. rewrite createDescriptor_unfold.
  cbn [CreateDescriptorRequest.xprv CreateDescriptorRequest.mnemonic
       CreateDescriptorRequest.network CreateDescriptorRequest.type
       CreateDescriptorRequest.threshold CreateDescriptorRequest.publicKeys
       CreateDescriptorRequest.path CreateDescriptorRequest.password].
  rewrite Hx, Hm, Hn. cbn [negb andb orb]. rewrite createXprv_outcome. fold call. rewrite Hk.
  cbn [fst snd data]. unfold buildDescriptor. rewrite Ht. cbn [negb].
  destruct (_exists path); reflexivity.
Qed.

(** A type the switch does not know is not refused: with a supplied xprv the
    result is a success envelope around a descriptor with an empty method,
    and the match is exact, so "multi" in lower case is such a type.  The
    xprv and the path are [printable] values. *)
Theorem createDescriptor_unlisted_type
  (t : string) (mnemonic password network xprv path : JsVal)
  (publicKeys : optional (list string)) (threshold : optional Z) (w : World St) :
  _exists xprv = true ->
  _exists mnemonic = false ->
  ~ In t ["default"; ""; "p2wpkh"; "wpkh"; "p2pkh"; "pkh"; "shp2wpkh"; "p2shp2wpkh"; "MULTI"] ->
  printable xprv = true ->
  printable path = true ->
  createDescriptor _bdk normalize
    (CreateDescriptorRequest.Build_t (OVal t) mnemonic password network publicKeys threshold
       xprv path) w
  = (Done (Success (JStr ("(" ++ toString xprv
                          ++ toString (if _exists path then path else JStr "/84'/1'/0'/0/*")
                          ++ ")"))), w).
Proof.
  intros Hx Hm Ht _ _. rewrite createDescriptor_unfold.
  cbn [CreateDescriptorRequest.xprv CreateDescriptorRequest.mnemonic
       CreateDescriptorRequest.network CreateDescriptorRequest.type
       CreateDescriptorRequest.threshold CreateDescriptorRequest.publicKeys
       CreateDescriptorRequest.path CreateDescriptorRequest.password].
  rewrite Hx, Hm. cbn [negb andb orb]. unfold buildDescriptor, looseEq, methodOf.
  assert (N : forall k, In k ["default"; ""; "p2wpkh"; "wpkh"; "p2pkh"; "pkh"; "shp2wpkh";
                              "p2shp2wpkh"; "MULTI"] -> (t =? k) = false).
  { intros k Hk. apply String.eqb_neq. intros ->. exact (Ht Hk). }
  rewrite !N by (simpl; tauto). cbn [negb orb].
  destruct (_exists path); reflexivity.
Qed.

(** An absent path ([undefined], [null] or the empty string) is the default
    path: the request behaves in every respect as the one that spells out
    /84'/1'/0'/0/*. *)
Theorem createDescriptor_default_path
  (type : optional string) (mnemonic password network xprv path : JsVal)
  (publicKeys : optional (list string)) (threshold : optional Z) (w : World St) :
  _exists path = false ->
  createDescriptor _bdk normalize
    (CreateDescriptorRequest.Build_t type mnemonic password network publicKeys threshold xprv path) w
  = createDescriptor _bdk normalize
    (CreateDescriptorRequest.Build_t type mnemonic password network publicKeys threshold xprv
       (JStr "/84'/1'/0'/0/*")) w.
Proof.
  intros Hp. rewrite !createDescriptor_unfold.
  cbn [CreateDescriptorRequest.xprv CreateDescriptorRequest.mnemonic
       CreateDescriptorRequest.network CreateDescriptorRequest.type
       CreateDescriptorRequest.threshold CreateDescriptorRequest.publicKeys
       CreateDescriptorRequest.path CreateDescriptorRequest.password].
  assert (B : forall key, buildDescriptor type threshold publicKeys key path
                          = buildDescriptor type threshold publicKeys key (JStr "/84'/1'/0'/0/*")).
  { intros key. unfold buildDescriptor. rewrite Hp. reflexivity. }
  rewrite !B. reflexivity.
Qed.

(** The names of one script type are interchangeable: a request gives the
    same result in the same world under [undefined], [null], "default", "",
    "p2wpkh" and "wpkh", under "p2pkh" and "pkh", and under "p2shp2wpkh" and
    "shp2wpkh". *)
Theorem createDescriptor_type_aliases
  (mnemonic password network xprv path : JsVal)
  (publicKeys : optional (list string)) (threshold : optional Z) (w : World St) :
  let run type :=
    createDescriptor _bdk normalize
      (CreateDescriptorRequest.Build_t type mnemonic password network publicKeys threshold
         xprv path) w in
  run OUndefined = run (OVal "wpkh")
  /\ run ONull = run (OVal "wpkh")
  /\ run (OVal "default") = run (OVal "wpkh")
  /\ run (OVal "") = run (OVal "wpkh")
  /\ run (OVal "p2wpkh") = run (OVal "wpkh")
  /\ run (OVal "p2pkh") = run (OVal "pkh")
  /\ run (OVal "p2shp2wpkh") = run (OVal "shp2wpkh").
Proof.
  intros run. unfold run. rewrite !createDescriptor_unfold. repeat split; reflexivity.
Qed.

(** The multisig tests, first failure first: a threshold that is absent or
    0, or public keys that are absent or empty, give "Thresold or publicKeys
    values are invalid." whatever the other value is; otherwise a threshold
    above the number of keys plus one gives "Thresold value is invalid.".
    Neither touches the world. *)
Theorem createDescriptor_multi_errors
  (mnemonic password network xprv path : JsVal)
  (publicKeys : optional (list string)) (threshold : optional Z) (w : World St) :
  let run :=
    createDescriptor _bdk normalize
      (CreateDescriptorRequest.Build_t (OVal "MULTI") mnemonic password network publicKeys
         threshold xprv path) w in
  _exists xprv = true ->
  _exists mnemonic = false ->
  ((threshold = OUndefined \/ threshold = ONull \/ threshold = OVal 0%Z
    \/ publicKeys = OUndefined \/ publicKeys = ONull \/ publicKeys = OVal []) ->
   run = (Done (failure normalize (JStr "Thresold or publicKeys values are invalid.")), w))
  /\ (forall t ks, threshold = OVal t -> publicKeys = OVal ks ->
        t <> 0%Z -> ks <> [] -> (t > Z.of_nat (List.length ks) + 1)%Z ->
        run = (Done (failure normalize (JStr "Thresold value is invalid.")), w)).
Proof.
  intros run Hx Hm. unfold run. rewrite createDescriptor_unfold.
  cbn [CreateDescriptorRequest.xprv CreateDescriptorRequest.mnemonic
       CreateDescriptorRequest.network CreateDescriptorRequest.type
       CreateDescriptorRequest.threshold CreateDescriptorRequest.publicKeys
       CreateDescriptorRequest.path CreateDescriptorRequest.password].
  rewrite Hx, Hm. cbn [negb andb orb]. unfold buildDescriptor.
  change (looseEq (OVal "MULTI") "MULTI") with true. cbn [negb].
  split.
  - intros H. destruct threshold as [| | t], publicKeys as [| | ks]; try reflexivity.
    assert (G : (t =? 0)%Z || (Z.of_nat (List.length ks) =? 0)%Z = true).
    { destruct H as [H | [H | [H | [H | [H | H]]]]]; try discriminate.
      - injection H as ->. reflexivity.
      - injection H as ->. apply orb_true_r. }
    cbv zeta. rewrite G. reflexivity.
  - intros t ks -> -> Ht Hks Hgt. cbv zeta.
    assert (G1 : (t =? 0)%Z = false) by (apply Z.eqb_neq; assumption).
    assert (G2 : (Z.of_nat (List.length ks) =? 0)%Z = false)
      by (destruct ks; [congruence | reflexivity]).
    assert (G3 : (t >? Z.of_nat (List.length ks) + 1)%Z = true)
      by (rewrite Z.gtb_ltb; apply Z.ltb_lt; lia).
    rewrite G1, G2, G3. reflexivity.
Qed.

(** *** Parentheses of the descriptors *)

Lemma noParens_balanced_from (s t : string) (d : nat) :
  noParens s = true -> balanced_from d (s ++ t) = balanced_from d t.
Proof.
  induction s as [| c s IH]; simpl; intros H; [reflexivity |].
  apply andb_prop in H as [H Hs]. apply andb_prop in H as [Ho Hc].
  apply negb_true_iff in Ho, Hc. rewrite Ho, Hc. apply IH, Hs.
Qed.

Lemma noParens_app (a b : string) : noParens (a ++ b) = noParens a && noParens b.
Proof.
  induction a as [| c a IH]; simpl; [reflexivity |]. rewrite IH. apply andb_assoc.
Qed.

Lemma noParens_join (ks : list string) :
  forallb noParens ks = true -> noParens (join "," ks) = true.
Proof.
  unfold join. induction ks as [| k ks IH]; simpl; intros H; [reflexivity |].
  apply andb_prop in H as [Hk Hks].
  destruct ks as [| k' ks']; [exact Hk |].
  rewrite noParens_app, Hk. simpl. apply IH, Hks.
Qed.

Lemma noParens_string_of_Z (n : Z) : noParens (string_of_Z n) = true.
Proof.
  assert (U : forall d, noParens (NilEmpty.string_of_uint d) = true)
    by (induction d; simpl; auto).
  assert (V : forall d, noParens (NilZero.string_of_uint d) = true)
    by (intros d; destruct d; try reflexivity; apply (U _)).
  unfold string_of_Z. destruct (Z.to_int n); simpl; apply V.
Qed.

(** The method token is one of four, and it is the unclosed "sh(wpkh" for
    the two sh-wpkh names only. *)
Lemma methodOf_cases (type : optional string) :
  (methodOf type = "sh(wpkh"
   /\ looseEq type "shp2wpkh" || looseEq type "p2shp2wpkh" = true)
  \/ ((methodOf type = "wpkh" \/ methodOf type = "pkh" \/ methodOf type = "")
      /\ looseEq type "shp2wpkh" || looseEq type "p2shp2wpkh" = false).
Proof.
  destruct type as [| | t]; try (right; split; [left; reflexivity | reflexivity]).
  unfold methodOf, looseEq.
  destruct (String.eqb_spec t "default") as [-> | _]; [right; split; [left |]; reflexivity |].
  destruct (String.eqb_spec t "") as [-> | _]; [right; split; [left |]; reflexivity |].
  destruct (String.eqb_spec t "p2wpkh") as [-> | _]; [right; split; [left |]; reflexivity |].
  destruct (String.eqb_spec t "wpkh") as [-> | _]; [right; split; [left |]; reflexivity |].
  destruct (String.eqb_spec t "p2pkh") as [-> | _];
    [right; split; [right; left |]; reflexivity |].
  destruct (String.eqb_spec t "pkh") as [-> | _];
    [right; split; [right; left |]; reflexivity |].
  destruct (String.eqb_spec t "shp2wpkh") as [-> | _]; [left; split; reflexivity |].
  destruct (String.eqb_spec t "p2shp2wpkh") as [-> | _]; [left; split; reflexivity |].
  right; split; [right; right |]; reflexivity.
Qed.

(** With a supplied xprv, and a key, a path and public keys that hold no
    parenthesis themselves, every descriptor [createDescriptor] returns has
    its parentheses matched, the multisig one and the one of an unlisted type
    included, except under the types "shp2wpkh" and "p2shp2wpkh", whose
    descriptor never has. *)
Theorem createDescriptor_balanced
  (type : optional string) (mnemonic password network path : JsVal) (X : string)
  (publicKeys : optional (list string)) (threshold : optional Z) (w : World St) (d : string) :
  X <> "" ->
  _exists mnemonic = false ->
  noParens X = true ->
  noParens (toString path) = true ->
  (forall ks, publicKeys = OVal ks -> forallb noParens ks = true) ->
  fst (createDescriptor _bdk normalize
         (CreateDescriptorRequest.Build_t type mnemonic password network publicKeys threshold
            (JStr X) path) w) = Done (Success (JStr d)) ->
  balanced d = negb (looseEq type "shp2wpkh" || looseEq type "p2shp2wpkh").
Proof.
  intros HX Hm NX NP NK. rewrite createDescriptor_unfold.
  cbn [CreateDescriptorRequest.xprv CreateDescriptorRequest.mnemonic
       CreateDescriptorRequest.network CreateDescriptorRequest.type
       CreateDescriptorRequest.threshold CreateDescriptorRequest.publicKeys
       CreateDescriptorRequest.path CreateDescriptorRequest.password].
  assert (EX : _exists (JStr X) = true)
    by (simpl; apply String.eqb_neq in HX; rewrite HX; reflexivity).
  rewrite EX, Hm. cbn [negb andb orb fst]. unfold buildDescriptor. cbv zeta.
  set (P := toString (if negb (_exists path) then JStr "/84'/1'/0'/0/*" else path)).
  assert (NP' : noParens P = true) by (unfold P; destruct (_exists path); [exact NP | reflexivity]).
  cbn [toString].
  destruct (looseEq type "MULTI") eqn:HM; cbn [negb].
  - assert (type = OVal "MULTI") as ->.
    { destruct type as [| | t]; try discriminate. simpl in HM.
      apply String.eqb_eq in HM. now subst. }
    destruct threshold as [| | t], publicKeys as [| | ks]; try discriminate.
    destruct ((t =? 0)%Z || (Z.of_nat (List.length ks) =? 0)%Z); [discriminate |].
    destruct ((t =? 0)%Z || (t >? Z.of_nat (List.length ks) + 1)%Z); [discriminate |].
    intros [= <-]. unfold balanced. simpl.
    rewrite (noParens_balanced_from _ _ _ (noParens_string_of_Z t)).
    rewrite (noParens_balanced_from _ _ _ NX). simpl.
    rewrite (noParens_balanced_from _ _ _ (noParens_join ks (NK ks eq_refl))).
    rewrite (noParens_balanced_from _ _ _ NP'). reflexivity.
  - intros [= <-]. unfold balanced.
    destruct (methodOf_cases type) as [[-> ->] | [[-> | [-> | ->]] ->]]; simpl;
      rewrite (noParens_balanced_from _ _ _ NX);
      rewrite (noParens_balanced_from _ _ _ NP'); reflexivity.
Qed.

(** *** createWallet *)

(** The guards of [createWallet] and their messages, first failure first;
    none of the four touches the world.  A request with both a descriptor and
    a mnemonic is told so even when the descriptor holds a space. *)
Theorem createWallet_error_messages (args : createWalletRequest.t) (w : World St) :
  let d := js_of JStr (createWalletRequest.descriptor args) in
  let mnemonic := createWalletRequest.mnemonic args in
  let fails message := createWallet _bdk normalize args w = (Done (failure normalize (JStr message)), w) in
  (_exists d = false -> _exists mnemonic = false ->
     fails "Required param mnemonic or descriptor is missing.")
  /\ (_exists d = true -> _exists mnemonic = true ->
     fails "Only one parameter is required either mnemonic or descriptor.")
  /\ (forall s, createWalletRequest.descriptor args = OVal s -> s <> "" ->
      _exists mnemonic = false -> In " "%char (list_ascii_of_string s) ->
     fails "Descriptor is not valid.")
  /\ (_exists d = false -> _exists mnemonic = true ->
      _exists (createWalletRequest.network args) = false ->
     fails "One or more required parameters are emtpy(Mnemonic, Network).").
Proof.
  destruct args as [mnemonic descriptor password network url proxy retry timeOut name].
  cbn [createWalletRequest.descriptor createWalletRequest.mnemonic createWalletRequest.network].
  repeat split.
  - intros Hd Hm. run_facade. rewrite Hd, Hm. reflexivity.
  - intros Hd Hm. run_facade. rewrite Hd, Hm. reflexivity.
  - intros s -> Hs Hm Hin. run_facade.
    apply String.eqb_neq in Hs. rewrite Hs, Hm. simpl.
    apply includes_space in Hin. rewrite Hin. reflexivity.
  - intros Hd Hm Hn. run_facade. rewrite Hd, Hm, Hn. simpl.
    destruct descriptor as [| | s]; reflexivity.
Qed.

(** What an accepted request sends to the native wallet constructor: none of
    the nine arguments is [undefined] or [null], and the key source is
    unambiguous, either an empty mnemonic with a descriptor, or a mnemonic
    and a network with an empty descriptor. *)
Theorem createWallet_arguments_present (args : createWalletRequest.t) (w : World St) :
  createWallet_preconditions args ->
  exists mnemonic password network url proxy retry timeOut name descriptor,
    events (snd (createWallet _bdk normalize args w)) =
      (events w ++ [Native {| method := "createWallet";
                             arguments := [mnemonic; password; network; url; proxy; retry;
                                           timeOut; name; descriptor] |}])%list
    /\ Forall (fun v => v <> JUndefined /\ v <> JNull)
         [mnemonic; password; network; url; proxy; retry; timeOut; name; descriptor]
    /\ ((mnemonic = JStr "" /\ descriptor <> JStr "")
        \/ (mnemonic <> JStr "" /\ network <> JStr "" /\ descriptor = JStr "")).
Proof.
  intros Hpre. pose proof Hpre as Hacc. apply createWallet_accepts_iff in Hacc.
  rewrite (createWallet_calls St _bdk normalize args w Hacc).
  unfold createWallet_call. cbv zeta. do 9 eexists.
  split; [reflexivity |].
  assert (Present : forall v, (if _exists v then v else JStr "") <> JUndefined
                              /\ (if _exists v then v else JStr "") <> JNull).
  { intros v. destruct v; simpl; try (split; discriminate).
    destruct (s =? ""); simpl; split; discriminate. }
  split; [repeat constructor; apply Present |].
  destruct Hpre as (Hone & _ & Hnet).
  destruct (_exists (js_of JStr (createWalletRequest.descriptor args))) eqn:Hd.
  - left. symmetry in Hone. apply negb_true_iff in Hone. rewrite Hone.
    split; [reflexivity |]. intros E. rewrite E in Hd. discriminate.
  - right. symmetry in Hone. apply negb_false_iff in Hone. rewrite Hone.
    pose proof (Hnet eq_refl) as Hn. rewrite Hn.
    split; [intros E; rewrite E in Hone; discriminate |].
    split; [intros E; rewrite E in Hn; discriminate | reflexivity].
Qed.

(** *** broadcastTx *)

(** [broadcastTx] checks before it broadcasts: without an address or an
    amount it fails with "Required address or amount parameters are
    missing.", with the amount [NaN] it fails with "Entered amount is
    invalid", both without a native call; with an address and a number it
    makes the one call [broadcastTx(address, amount)], for every number (0 and
    the negative ones too), and relays the answer. *)
Theorem broadcastTx_validation (address : JsVal) (amount : optional JsNumber) (w : World St) :
  let run :=
    broadcastTx _bdk normalize
      {| BroadcastTransactionRequest.address := address;
         BroadcastTransactionRequest.amount := amount |} w in
  (_exists address = false \/ amount = OUndefined \/ amount = ONull ->
     run = (Done (failure normalize
                    (JStr "Required address or amount parameters are missing.")), w))
  /\ (_exists address = true -> amount = OVal NaN ->
     run = (Done (failure normalize (JStr "Entered amount is invalid")), w))
  /\ (forall n, _exists address = true -> amount = OVal (Num n) ->
     let call := {| method := "broadcastTx"; arguments := [address; JNum n] |} in
     run = (match fst (_bdk call (engine w)) with
            | Done tx => Done (Success tx)
            | Thrown e => Done (failure normalize e)
            end,
            {| engine := snd (_bdk call (engine w));
               events := (events w ++ [Native call])%list |})).
Proof.
  intros run. unfold run, broadcastTx. cbv zeta beta iota. repeat split.
  - intros [Ha | [-> | ->]].
    + unfold orFailure, tryCatch, throw. rewrite Ha. reflexivity.
    + unfold orFailure, tryCatch, throw. simpl. rewrite orb_true_r. reflexivity.
    + unfold orFailure, tryCatch, throw. simpl. rewrite orb_true_r. reflexivity.
  - intros Ha ->. unfold orFailure, tryCatch, throw. rewrite Ha. reflexivity.
  - intros n Ha ->. cbn [existsNumber isNaN _exists negb orb]. rewrite Ha. cbn [negb orb].
    apply relay_spec.
Qed.

End FurtherProperties.

(** ** The further properties at work on concrete requests *)

(** Entropy 128 with the length 24 asks for 12 words; entropy 100 with the
    length 12 asks for [undefined]. *)
Lemma generateMnemonic_entropy_overrides_length_examples :
  let request e l :=
    Some {| GenerateMnemonicRequest.entropy := OVal e;
            GenerateMnemonicRequest.length := JNum l;
            GenerateMnemonicRequest.network := JUndefined |} in
  events (snd (generateMnemonic counting messageOf (request 128%Z 24%Z) (start 0%Z))) =
    [Native {| method := "generateMnemonic"; arguments := [JNum 12; JUndefined] |}]
  /\ events (snd (generateMnemonic counting messageOf (request 100%Z 12%Z) (start 0%Z))) =
    [Native {| method := "generateMnemonic"; arguments := [JUndefined; JUndefined] |}].
Proof.
  intros request. split.
  - apply (generateMnemonic_entropy_overrides_length Z counting messageOf
             128%Z (JNum 24) JUndefined (start 0%Z)); [discriminate | reflexivity].
  - apply (generateMnemonic_entropy_overrides_length Z counting messageOf
             100%Z (JNum 12) JUndefined (start 0%Z)); [discriminate | reflexivity].
Defined.

(** A module that returns key info, and one that answers [null]. *)
Lemma createXprv_against_createExtendedKey_examples :
  let args := {| CreateExtendedKeyRequest.network := JStr "testnet";
                 CreateExtendedKeyRequest.mnemonic := JStr "seed";
                 CreateExtendedKeyRequest.password := JUndefined |} in
  fst (createXprv keyInfoModule messageOf args (start tt)) = Done (Success (JStr "tprvK"))
  /\ fst (createExtendedKey (answering JNull) messageOf args (start tt)) = Done (Success JNull)
  /\ fst (createXprv (answering JNull) messageOf args (start tt)) =
       Done (Failure (messageOf typeError)).
Proof.
  intros args.
  destruct (createXprv_against_createExtendedKey unit keyInfoModule messageOf args (start tt))
    as (Hobj & _ & _).
  destruct (createXprv_against_createExtendedKey unit (answering JNull) messageOf args (start tt))
    as (_ & _ & Hnull).
  split; [| split].
  - rewrite (proj2 (Hobj _ eq_refl)). reflexivity.
  - rewrite (proj1 (Hnull JNull (or_intror eq_refl) eq_refl)). reflexivity.
  - rewrite (proj2 (Hnull JNull (or_intror eq_refl) eq_refl)). reflexivity.
Defined.

(** A mnemonic alone. *)
Lemma createDescriptor_mnemonic_needs_network_example :
  createDescriptor counting messageOf
    (CreateDescriptorRequest.Build_t (OVal "wpkh") (JStr "seed") JUndefined JUndefined
       OUndefined OUndefined JUndefined JUndefined) (start 0%Z)
  = (Done (Failure (JObj [("message",
       JStr "One or more required parameters are emtpy(Mnemonic, Network).")])), start 0%Z).
Proof.
  apply (createDescriptor_mnemonic_needs_network Z counting messageOf
           (CreateDescriptorRequest.Build_t (OVal "wpkh") (JStr "seed") JUndefined JUndefined
              OUndefined OUndefined JUndefined JUndefined) (start 0%Z));
    reflexivity.
Defined.

(** Deriving "tprvK" from a seed and describing it, in two steps and in one. *)
Lemma createDescriptor_mnemonic_composes_example :
  createDescriptor keyInfoModule messageOf
    (CreateDescriptorRequest.Build_t (OVal "pkh") (JStr "seed") JUndefined (JStr "testnet")
       OUndefined OUndefined JUndefined JUndefined) (start tt)
  = createDescriptor keyInfoModule messageOf
    (CreateDescriptorRequest.Build_t (OVal "pkh") JUndefined JUndefined (JStr "testnet")
       OUndefined OUndefined (JStr "tprvK") JUndefined)
    {| engine := tt;
       events := [Native {| method := "getExtendedKeyInfo";
                            arguments := [JStr "testnet"; JStr "seed"; JUndefined] |}] |}.
Proof.
  apply (createDescriptor_mnemonic_composes unit keyInfoModule messageOf
           (OVal "pkh") (JStr "seed") JUndefined (JStr "testnet") JUndefined JUndefined
           (JStr "tprvK") OUndefined OUndefined (start tt)); reflexivity.
Defined.

(** Key info without an [xprv] property. *)
Lemma createDescriptor_prints_key_info_example :
  createDescriptor (answering (JObj [("xpub", JStr "tpubK")])) messageOf
    (CreateDescriptorRequest.Build_t (OVal "wpkh") (JStr "seed") JUndefined (JStr "testnet")
       OUndefined OUndefined JUndefined JUndefined) (start tt)
  = (Done (Success (JStr "wpkh(undefined/84'/1'/0'/0/*)")),
     {| engine := tt;
        events := [Native {| method := "getExtendedKeyInfo";
                             arguments := [JStr "testnet"; JStr "seed"; JUndefined] |}] |}).
Proof.
  apply (createDescriptor_prints_key_info unit (answering (JObj [("xpub", JStr "tpubK")]))
           messageOf (OVal "wpkh") (JStr "seed") JUndefined (JStr "testnet") JUndefined
           JUndefined OUndefined OUndefined [("xpub", JStr "tpubK")] (start tt));
    reflexivity.
Defined.

(** "multi" in lower case is no multisig request. *)
Lemma createDescriptor_unlisted_type_example :
  createDescriptor counting messageOf
    (CreateDescriptorRequest.Build_t (OVal "multi") JUndefined JUndefined JUndefined
       (OVal ["A"; "B"]) (OVal 2%Z) (JStr "X") JUndefined) (start 0%Z)
  = (Done (Success (JStr "(X/84'/1'/0'/0/*)")), start 0%Z).
Proof.
  apply (createDescriptor_unlisted_type Z counting messageOf "multi" JUndefined JUndefined
           JUndefined (JStr "X") JUndefined (OVal ["A"; "B"]) (OVal 2%Z) (start 0%Z));
    [reflexivity | reflexivity | | reflexivity | reflexivity].
  simpl. intuition discriminate.
Defined.

(** [path: null] and the default path spelled out. *)
Lemma createDescriptor_default_path_example :
  createDescriptor counting messageOf
    (CreateDescriptorRequest.Build_t (OVal "pkh") JUndefined JUndefined JUndefined
       OUndefined OUndefined (JStr "X") JNull) (start 0%Z)
  = createDescriptor counting messageOf
    (CreateDescriptorRequest.Build_t (OVal "pkh") JUndefined JUndefined JUndefined
       OUndefined OUndefined (JStr "X") (JStr "/84'/1'/0'/0/*")) (start 0%Z).
Proof.
  apply (createDescriptor_default_path Z counting messageOf (OVal "pkh") JUndefined JUndefined
           JUndefined (JStr "X") JNull OUndefined OUndefined (start 0%Z)).
  reflexivity.
Defined.

(** No public keys, whatever the threshold; and five signers of two keys. *)
Lemma createDescriptor_multi_errors_examples :
  let run threshold publicKeys :=
    createDescriptor counting messageOf
      (CreateDescriptorRequest.Build_t (OVal "MULTI") JUndefined JUndefined JUndefined
         publicKeys threshold (JStr "X") JUndefined) (start 0%Z) in
  run (OVal 5%Z) (OVal []) =
    (Done (Failure (JObj [("message", JStr "Thresold or publicKeys values are invalid.")])),
     start 0%Z)
  /\ run (OVal 5%Z) (OVal ["A"; "B"]) =
    (Done (Failure (JObj [("message", JStr "Thresold value is invalid.")])), start 0%Z).
Proof.
  intros run. split.
  - apply (proj1 (createDescriptor_multi_errors Z counting messageOf JUndefined JUndefined
                    JUndefined (JStr "X") JUndefined (OVal []) (OVal 5%Z) (start 0%Z)
                    eq_refl eq_refl)).
    do 5 right. reflexivity.
  - apply (proj2 (createDescriptor_multi_errors Z counting messageOf JUndefined JUndefined
                    JUndefined (JStr "X") JUndefined (OVal ["A"; "B"]) (OVal 5%Z) (start 0%Z)
                    eq_refl eq_refl) 5%Z ["A"; "B"] eq_refl eq_refl);
      [discriminate | discriminate | simpl; lia].
Defined.

(** The multisig descriptor of the keys A and B is balanced. *)
Lemma createDescriptor_balanced_example :
  balanced "sh(multi(2X,A,B/84'/1'/0'/0/*))" = true.
Proof.
  apply (createDescriptor_balanced Z counting messageOf (OVal "MULTI") JUndefined JUndefined
           JUndefined JUndefined "X" (OVal ["A"; "B"]) (OVal 2%Z) (start 0%Z)
           "sh(multi(2X,A,B/84'/1'/0'/0/*))");
    try reflexivity; try discriminate.
  intros ks [= <-]. reflexivity.
Defined.

(** Both a mnemonic and a descriptor with a space in it; a descriptor with a
    space alone. *)
Lemma createWallet_error_messages_examples :
  let request mnemonic :=
    createWalletRequest.Build_t mnemonic (OVal "a b") JUndefined JUndefined JUndefined
      JUndefined JUndefined JUndefined JUndefined in
  createWallet counting messageOf (request (JStr "seed")) (start 0%Z) =
    (Done (Failure (JObj [("message",
       JStr "Only one parameter is required either mnemonic or descriptor.")])), start 0%Z)
  /\ createWallet counting messageOf (request JUndefined) (start 0%Z) =
    (Done (Failure (JObj [("message", JStr "Descriptor is not valid.")])), start 0%Z).
Proof.
  intros request. split.
  - apply (proj1 (proj2 (createWallet_error_messages Z counting messageOf
                           (request (JStr "seed")) (start 0%Z)))); reflexivity.
  - apply (proj1 (proj2 (proj2 (createWallet_error_messages Z counting messageOf
                                  (request JUndefined) (start 0%Z)))) "a b");
      [reflexivity | discriminate | reflexivity | simpl; tauto].
Defined.

(** A mnemonic request: the descriptor slot is an empty string. *)
Lemma createWallet_arguments_present_example :
  exists mnemonic password network url proxy retry timeOut name descriptor,
    events (snd (createWallet counting messageOf
                   (createWalletRequest.Build_t (JStr "seed") ONull JUndefined (JStr "testnet")
                      JUndefined JUndefined JUndefined JUndefined JUndefined) (start 0%Z))) =
      [Native {| method := "createWallet";
                 arguments := [mnemonic; password; network; url; proxy; retry; timeOut; name;
                               descriptor] |}]
    /\ Forall (fun v => v <> JUndefined /\ v <> JNull)
         [mnemonic; password; network; url; proxy; retry; timeOut; name; descriptor]
    /\ ((mnemonic = JStr "" /\ descriptor <> JStr "")
        \/ (mnemonic <> JStr "" /\ network <> JStr "" /\ descriptor = JStr "")).
Proof.
  apply (createWallet_arguments_present Z counting messageOf
           (createWalletRequest.Build_t (JStr "seed") ONull JUndefined (JStr "testnet")
              JUndefined JUndefined JUndefined JUndefined JUndefined) (start 0%Z)).
  apply createWallet_accepts_iff. reflexivity.
Defined.

(** No amount, the amount [NaN], and the amount 0. *)
Lemma broadcastTx_validation_examples :
  let run amount :=
    broadcastTx counting messageOf
      {| BroadcastTransactionRequest.address := JStr "tb1q";
         BroadcastTransactionRequest.amount := amount |} (start 0%Z) in
  run OUndefined =
    (Done (Failure (JObj [("message",
       JStr "Required address or amount parameters are missing.")])), start 0%Z)
  /\ run (OVal NaN) =
    (Done (Failure (JObj [("message", JStr "Entered amount is invalid")])), start 0%Z)
  /\ run (OVal (Num 0%Z)) =
    (Done (Success (JObj [("method", JStr "broadcastTx"); ("call", JNum 0)])),
     {| engine := 1%Z;
        events := [Native {| method := "broadcastTx";
                             arguments := [JStr "tb1q"; JNum 0] |}] |}).
Proof.
  intros run. split; [| split].
  - apply (proj1 (broadcastTx_validation Z counting messageOf (JStr "tb1q") OUndefined
                    (start 0%Z))). right. left. reflexivity.
  - apply (proj1 (proj2 (broadcastTx_validation Z counting messageOf (JStr "tb1q") (OVal NaN)
                           (start 0%Z)))); reflexivity.
  - apply (proj2 (proj2 (broadcastTx_validation Z counting messageOf (JStr "tb1q")
                           (OVal (Num 0%Z)) (start 0%Z))) 0%Z); reflexivity.
Defined.
